(** * Cogiflow affiliate redirect API: the route handlers of
    [app/api/redirect/[slug]/route.ts]

    The repository holds three copies of the route module.  They share the
    slug validation, the Supabase lookup, the click-counter update and the
    choice of the destination URL, and differ only in the response that is
    built on the tracked path: a 301 redirect, or one of two HTML pages that
    open the destination in a new window.

    The embedding follows the TypeScript text:
    - a JavaScript string is the list of its UTF-16 code units;
    - [trim], [toLowerCase] and the regular-expression [replace] are the
      String methods the handler calls;
    - the handler is a program over the two Supabase calls and the console,
      with [throw] and [try]/[catch]; a store answers the calls;
    - what the JavaScript runtime decides (case mapping outside ASCII, URL
      parsing, legal header values, the digits of large numbers) is a
      parameter, the platform. *)

From Stdlib Require Import List NArith ZArith Bool String Ascii Lia.
From Stdlib Require Import DecimalString.
Import ListNotations.

Local Open Scope Z_scope.

(** ** JavaScript strings *)

(** A string value: its UTF-16 code units. *)
Definition jsstring : Type := list N.

(** A literal of the source (the literals of the route are ASCII). *)
Definition js (s : string) : jsstring :=
  map N_of_ascii (list_ascii_of_string s).

(** [a === b] on strings. *)
Fixpoint streq (a b : jsstring) : bool :=
  match a, b with
  | [], [] => true
  | x :: a', y :: b' => N.eqb x y && streq a' b'
  | _, _ => false
  end.

(** [!s] on a string: the empty string is the only falsy one. *)
Definition is_empty (s : jsstring) : bool :=
  match s with [] => true | _ :: _ => false end.

(** ECMAScript WhiteSpace and LineTerminator code points, the characters
    [String.prototype.trim] removes: TAB, LF, VT, FF, CR, SP, NBSP,
    U+1680, U+2000..U+200A, U+2028, U+2029, U+202F, U+205F, U+3000, U+FEFF. *)
Definition isWhiteSpace (c : N) : bool :=
  ((9 <=? c) && (c <=? 13) || (c =? 32) || (c =? 160) || (c =? 5760)
   || (8192 <=? c) && (c <=? 8202)
   || (c =? 8232) || (c =? 8233) || (c =? 8239) || (c =? 8287)
   || (c =? 12288) || (c =? 65279))%N.

Fixpoint trimStart (s : jsstring) : jsstring :=
  match s with
  | [] => []
  | c :: r => if isWhiteSpace c then trimStart r else s
  end.

Definition trimEnd (s : jsstring) : jsstring := rev (trimStart (rev s)).

(** [s.trim()] *)
Definition trim (s : jsstring) : jsstring := trimEnd (trimStart s).

(** The character class of the route's regular expression
    [/[^a-z0-9-_]/g] without the negation: [a-z], [0-9], [-] and [_]. *)
Definition in_class (c : N) : bool :=
  ((97 <=? c) && (c <=? 122) || (48 <=? c) && (c <=? 57)
   || (c =? 45) || (c =? 95))%N.

(** [s.replace(/[^a-z0-9-_]/g, '')]: every code unit outside the class is
    replaced by the empty string (the expression has no [u] flag, so it
    works on code units). *)
Definition replace_outside_class (s : jsstring) : jsstring :=
  filter in_class s.

Definition isAscii (c : N) : bool := (c <? 128)%N.

(** Lower-casing of one ASCII code unit: [A-Z] to [a-z]. *)
Definition asciiToLower (c : N) : N :=
  if ((65 <=? c) && (c <=? 90))%N then (c + 32)%N else c.

(** ** The platform

    Four built-ins the route calls are given by tables and algorithms of
    the JavaScript runtime, not by the repository: the Unicode case mapping
    behind [toLowerCase] on text that is not ASCII, the WHATWG URL parser
    behind [new URL], the test of header values inside the response
    constructors, and the digits [String] gives a number beyond the safe
    integers.  They are the fields of a platform. *)

(** What the route reads of a parsed URL. *)
Record URL : Type := mkURL {
  protocol : jsstring;
  hostname : jsstring;
}.

Class Platform : Type := {
  (** [s.toLowerCase()] for a string with a code unit above U+007F. *)
  unicodeToLowerCase : jsstring -> jsstring;
  (** [new URL(s)]: the parsed URL, or [None] when the constructor throws
      its TypeError. *)
  URL_parse : jsstring -> option URL;
  (** Whether [NextResponse.redirect] and [new Response] take the string as
      the value of a header; they throw a TypeError when they do not (a
      code unit above U+00FF, a line break, a NUL). *)
  legalHeaderValue : jsstring -> bool;
  (** [String(n)] for an integer-valued number that is not a safe integer:
      the shortest digits that read back as the same double, padded with
      zeros, and the exponent notation from 1e21. *)
  bigNumberToString : Z -> jsstring;
}.

Section Strings.

Context {P : Platform}.

(** [s.toLowerCase()].  On ASCII text only [A-Z] have a lower-case
    mapping and no contextual rule applies. *)
Definition toLowerCase (s : jsstring) : jsstring :=
  if forallb isAscii s then map asciiToLower s else unicodeToLowerCase s.

(** Line 44 of the route:
    [slug.trim().toLowerCase().replace(/[^a-z0-9-_]/g, '')]. *)
Definition sanitize (slug : jsstring) : jsstring :=
  replace_outside_class (toLowerCase (trim slug)).

End Strings.

(** ** Numbers

    The counter is a JavaScript number holding an integer.  A double has a
    53-bit significand: the sum of two integers is rounded to the nearest
    representable integer, ties to the even significand. *)

Definition round_to_double (x : Z) : Z :=
  let a := Z.abs x in
  if a <=? 2 ^ 53 then x
  else
    let sh := Z.log2 a - 52 in
    let q := Z.shiftr a sh in
    let r := a - Z.shiftl q sh in
    let half := Z.shiftl 1 (sh - 1) in
    let q' := if r <? half then q
              else if half <? r then q + 1
              else if Z.even q then q else q + 1 in
    Z.sgn x * Z.shiftl q' sh.

(** [x + y] on integer-valued numbers (of a magnitude below 2^1024, where
    the sum would be an infinity). *)
Definition Number_add (x y : Z) : Z := round_to_double (x + y).

(** [Number.isSafeInteger(n)] *)
Definition isSafeInteger (n : Z) : bool := Z.abs n <=? 2 ^ 53 - 1.

(** The decimal digits of an integer, with a minus sign when negative. *)
Definition decimal (n : Z) : jsstring :=
  js (NilZero.string_of_int (Z.to_int n)).

(** [String(n)] for an integer-valued number: a safe integer is printed
    with all its decimal digits; beyond them the platform chooses the
    digits. *)
Definition Number_toString {P : Platform} (n : Z) : jsstring :=
  if isSafeInteger n then decimal n else bigNumberToString n.

(** ** The data of the route *)

(** A row of [affiliate_links] as the client returns it.  The columns the
    route guards with [!x] or [x || d] may be null: [None]. *)
Record AffiliateLink : Type := mkAffiliateLink {
  id : jsstring;
  slug : jsstring;
  redirect_url : option jsstring;
  fallback_url : option jsstring;
  clicks : option Z;
  created_at : jsstring;
  active : bool;
}.

(** The error object of a Supabase reply. *)
Record PostgrestError : Type := mkPostgrestError {
  code : jsstring;
  message : jsstring;
}.

(** [{ data: affiliateLink, error: fetchError }] of the [single()] query. *)
Record SingleReply : Type := mkSingleReply {
  affiliateLink : option AffiliateLink;
  fetchError : option PostgrestError;
}.

(** [{ data: updateData, error: updateError }] of the update. *)
Record UpdateReply : Type := mkUpdateReply {
  updateData : option (list AffiliateLink);
  updateError : option PostgrestError;
}.

(** A thrown value: the TypeError of [new URL], the TypeError of a
    response constructor given a header value it does not take, or the
    reason a promise of the store was rejected with. *)
Inductive thrown : Type :=
| TypeError_InvalidURL (input : jsstring)
| TypeError_InvalidHeader (value : jsstring)
| Rejection (reason : jsstring).

(** An awaited promise. *)
Inductive settled (X : Type) : Type :=
| Fulfilled (x : X)
| Rejected (e : thrown).
Arguments Fulfilled {X} x.
Arguments Rejected {X} e.

Inductive level : Type := Log | Error.

(** An argument of a console call. *)
Inductive logarg : Type :=
| LString (s : jsstring)
| LError (e : PostgrestError)
| LRows (d : option (list AffiliateLink))
| LThrown (e : thrown).

(** The second argument of the response constructors. *)
Record ResponseInit : Type := mkInit {
  status : Z;
  headers : list (jsstring * jsstring);
}.

(** The two HTML templates; each interpolates the host name of the
    destination and the destination itself. *)
Inductive Page : Type :=
| SpinnerPage (host redirectUrl : jsstring)
| MinimalPage (host redirectUrl : jsstring).

(** A response, by the constructor call that built it. *)
Inductive Response : Type :=
| NextResponse_redirect (url : jsstring) (init : ResponseInit)
| NextResponse_json (body : list (jsstring * jsstring)) (init : ResponseInit)
| new_Response (body : Page) (init : ResponseInit).

(** The three copies of the route. *)
Inductive variant : Type :=
| RedirectRoute       (* 301 redirect on the tracked path *)
| SpinnerPageRoute    (* HTML page with the spinner *)
| MinimalPageRoute.   (* minimal HTML page *)

(** ** Programs over the store and the console *)

Inductive prog (R : Type) : Type :=
| Ret (r : R)
| Throw (e : thrown)
| Console (l : level) (args : list logarg) (k : prog R)
  (** [supabase.from('affiliate_links').select('*').eq('slug', s)
       .eq('active', true).single()] *)
| SelectSingle (s : jsstring) (k : settled SingleReply -> prog R)
  (** [supabase.from('affiliate_links').update({ clicks: c })
       .eq('id', i).select()] *)
| UpdateClicks (i : jsstring) (c : Z) (k : settled UpdateReply -> prog R).
Arguments Ret {R} r.
Arguments Throw {R} e.
Arguments Console {R} l args k.
Arguments SelectSingle {R} s k.
Arguments UpdateClicks {R} i c k.

Fixpoint bind {A B : Type} (p : prog A) (f : A -> prog B) : prog B :=
  match p with
  | Ret a => f a
  | Throw e => Throw e
  | Console l args k => Console l args (bind k f)
  | SelectSingle s k => SelectSingle s (fun r => bind (k r) f)
  | UpdateClicks i c k => UpdateClicks i c (fun r => bind (k r) f)
  end.

(** [try { p } catch (error) { h error }] *)
Fixpoint try_catch {R : Type} (p : prog R) (h : thrown -> prog R) : prog R :=
  match p with
  | Ret r => Ret r
  | Throw e => h e
  | Console l args k => Console l args (try_catch k h)
  | SelectSingle s k => SelectSingle s (fun r => try_catch (k r) h)
  | UpdateClicks i c k => UpdateClicks i c (fun r => try_catch (k r) h)
  end.

(** [await]: a rejected promise throws its reason. *)
Definition await {X : Type} (r : settled X) : prog X :=
  match r with
  | Fulfilled x => Ret x
  | Rejected e => Throw e
  end.

Definition console_log (args : list logarg) : prog unit :=
  Console Log args (Ret tt).
Definition console_error (args : list logarg) : prog unit :=
  Console Error args (Ret tt).
Definition select_single (s : jsstring) : prog SingleReply :=
  SelectSingle s await.
Definition update_clicks (i : jsstring) (c : Z) : prog UpdateReply :=
  UpdateClicks i c await.

Declare Scope prog_scope.
Delimit Scope prog_scope with prog.
Notation "x <- c1 ;; c2" := (bind c1 (fun x => c2))
  (at level 61, c1 at next level, right associativity) : prog_scope.
Notation "c1 ;; c2" := (bind c1 (fun _ => c2))
  (at level 61, right associativity) : prog_scope.

(** ** The route *)

Section Route.

Context {P : Platform}.

Local Open Scope prog_scope.

(** The fixed default destination, written out at every use in the
    source. *)
Definition DEFAULT_URL : jsstring := js "https://cogiflow.ai".

(** [function isValidUrl(urlString)] *)
Definition isValidUrl (urlString : jsstring) : bool :=
  match URL_parse urlString with
  | Some url =>
      streq (protocol url) (js "http:") || streq (protocol url) (js "https:")
  | None => false
  end.

(** [NextResponse.redirect('https://cogiflow.ai',
      { status: 301, headers: { 'Cache-Control': cc } })] *)
Definition default_redirect (cc : string) : Response :=
  NextResponse_redirect DEFAULT_URL
    (mkInit 301 [(js "Cache-Control", js cc)]).

(** [affiliateLink.clicks || 0]: null gives 0 (and so does the falsy
    number 0, which is its own replacement). *)
Definition clicks_or_0 (link : AffiliateLink) : Z :=
  match clicks link with
  | Some n => n
  | None => 0
  end.

(** A value interpolated in a template literal. *)
Definition template_clicks (c : option Z) : jsstring :=
  match c with
  | Some n => Number_toString n
  | None => js "null"
  end.

(** [x || d] on a string that may be null. *)
Definition or_else (x : option jsstring) (d : jsstring) : jsstring :=
  match x with
  | Some s => if is_empty s then d else s
  | None => d
  end.

(** Lines 115-120: the primary URL, or the fallback (or the default)
    when the primary is empty or not valid. *)
Definition first_choice (link : AffiliateLink) : jsstring :=
  match redirect_url link with
  | Some redirectUrl =>
      if is_empty redirectUrl || negb (isValidUrl redirectUrl)
      then or_else (fallback_url link) DEFAULT_URL
      else redirectUrl
  | None => or_else (fallback_url link) DEFAULT_URL
  end.

(** The headers of the tracked response, after its first entries. *)
Definition tracking_headers (link : AffiliateLink)
  : list (jsstring * jsstring) :=
  [ (js "Cache-Control", js "no-cache, no-store, must-revalidate");
    (js "X-Cogiflow-Affiliate", id link);
    (js "X-Cogiflow-Clicks", Number_toString (Number_add (clicks_or_0 link) 1)) ].

(** [new URL(redirectUrl).hostname] inside the HTML templates. *)
Definition hostname_of (redirectUrl : jsstring) : prog jsstring :=
  match URL_parse redirectUrl with
  | Some url => Ret (hostname url)
  | None => Throw (TypeError_InvalidURL redirectUrl)
  end.

(** The response constructors copy the [headers] object they are given
    into a [Headers] and throw a TypeError when a value is not a legal
    header value.  Of the values of the route, the literals and the digits
    of a number are legal; the id of the row is what the store holds. *)
Definition built (link : AffiliateLink) (response : Response) : prog Response :=
  if legalHeaderValue (id link) then Ret response
  else Throw (TypeError_InvalidHeader (id link)).

(** The last statement of the [try] block, one per copy of the route. *)
Definition respond (v : variant) (link : AffiliateLink)
  (redirectUrl : jsstring) : prog Response :=
  match v with
  | RedirectRoute =>
      built link
        (NextResponse_redirect redirectUrl
           (mkInit 301 (tracking_headers link)))
  | SpinnerPageRoute =>
      host <- hostname_of redirectUrl ;;
      built link
        (new_Response (SpinnerPage host redirectUrl)
           (mkInit 200 ((js "Content-Type", js "text/html; charset=utf-8")
                        :: tracking_headers link)))
  | MinimalPageRoute =>
      host <- hostname_of redirectUrl ;;
      built link
        (new_Response (MinimalPage host redirectUrl)
           (mkInit 200 ((js "Content-Type", js "text/html; charset=utf-8")
                        :: tracking_headers link)))
  end.

(** Lines 114-139: the choice of the destination and the response. *)
Definition choose_and_respond (v : variant) (sanitizedSlug : jsstring)
  (link : AffiliateLink) : prog Response :=
  let redirectUrl := first_choice link in
  redirectUrl <-
    (if negb (isValidUrl redirectUrl)
     then console_error [LString (js "Invalid redirect URL: " ++ redirectUrl)] ;;
          Ret DEFAULT_URL
     else Ret redirectUrl) ;;
  console_log [LString (js "Redirecting slug " ++ [34%N] ++ sanitizedSlug
                        ++ [34%N] ++ js " to: " ++ redirectUrl)] ;;
  respond v link redirectUrl.

(** Lines 96-139, the statements after the lookup found a row: the
    counter update, then the choice of the destination and the
    response. *)
Definition track_and_respond (v : variant) (sanitizedSlug : jsstring)
  (link : AffiliateLink) : prog Response :=
  console_log [LString (js "Attempting to update clicks for ID: " ++ id link
                        ++ js ", current clicks: "
                        ++ template_clicks (clicks link))] ;;
  reply <- update_clicks (id link) (Number_add (clicks_or_0 link) 1) ;;
  match updateError reply with
  | Some e => console_error [LString (js "Error updating clicks counter:"); LError e]
  | None => console_log [LString (js "Clicks updated successfully:");
                         LRows (updateData reply)]
  end ;;
  choose_and_respond v sanitizedSlug link.

(** Lines 64-139, the statements after the lookup was answered. *)
Definition after_lookup (v : variant) (sanitizedSlug : jsstring)
  (reply : SingleReply) : prog Response :=
  match fetchError reply with
  | Some fetchError =>
      if streq (code fetchError) (js "PGRST116") then
        console_log [LString (js "No affiliate link found for slug: "
                              ++ sanitizedSlug)] ;;
        Ret (default_redirect "public, max-age=300")
      else
        console_error [LString (js "Database error:"); LError fetchError] ;;
        Ret (default_redirect "public, max-age=60")
  | None =>
      match affiliateLink reply with
      | None =>
          console_log [LString (js "No affiliate link found for slug: "
                                ++ sanitizedSlug)] ;;
          Ret (default_redirect "public, max-age=300")
      | Some link => track_and_respond v sanitizedSlug link
      end
  end.

(** The body of the [try] block.  The guard of line 33 is
    [!slug || typeof slug !== 'string' || slug.trim() === '']: a missing
    parameter and the empty string are falsy, and a parameter that is
    present is a string. *)
Definition GET_try (v : variant) (slug : option jsstring) : prog Response :=
  match slug with
  | None =>
      console_error [LString (js "Invalid or missing slug parameter")] ;;
      Ret (default_redirect "public, max-age=300")
  | Some slug =>
      if is_empty slug || streq (trim slug) (js "") then
        console_error [LString (js "Invalid or missing slug parameter")] ;;
        Ret (default_redirect "public, max-age=300")
      else
        let sanitizedSlug := sanitize slug in
        if negb (streq sanitizedSlug (toLowerCase (trim slug))) then
          console_error [LString (js "Slug contains invalid characters: " ++ slug)] ;;
          Ret (default_redirect "public, max-age=300")
        else
          reply <- select_single sanitizedSlug ;;
          after_lookup v sanitizedSlug reply
  end.

(** The [catch] block. *)
Definition GET_catch (error : thrown) : prog Response :=
  console_error [LString (js "Unexpected error in affiliate redirect:");
                 LThrown error] ;;
  Ret (default_redirect "public, max-age=60").

(** [export async function GET(request, { params })], with [slug] the
    [params.slug] of the request ([None]: the parameter is missing). *)
Definition GET (v : variant) (slug : option jsstring) : prog Response :=
  try_catch (GET_try v slug) GET_catch.

Definition method_not_allowed : Response :=
  NextResponse_json [(js "error", js "Method not allowed")] (mkInit 405 []).

(** [export async function POST()] *)
Definition POST : prog Response := Ret method_not_allowed.
(** [export async function PUT()] *)
Definition PUT : prog Response := Ret method_not_allowed.
(** [export async function DELETE()] *)
Definition DELETE : prog Response := Ret method_not_allowed.

End Route.

(** ** Stores and runs *)

(** A store answers the two calls of the route from its state [S]; an
    answer is a fulfilled reply or a rejection. *)
Record Store (S : Type) : Type := mkStore {
  single : jsstring -> S -> settled SingleReply * S;
  update : jsstring -> Z -> S -> settled UpdateReply * S;
}.
Arguments mkStore {S} single update.
Arguments single {S} _ _ _.
Arguments update {S} _ _ _ _.

(** What a run did, in order. *)
Inductive event : Type :=
| Logged (l : level) (args : list logarg)
| Selected (s : jsstring)
| Updated (i : jsstring) (c : Z).

(** How a handler ends: it returns, or an exception reaches its caller. *)
Inductive completion (R : Type) : Type :=
| Returned (r : R)
| Uncaught (e : thrown).
Arguments Returned {R} r.
Arguments Uncaught {R} e.

Record Run (S R : Type) : Type := mkRun {
  result : completion R;
  final : S;
  trace : list event;
}.
Arguments mkRun {S R} result final trace.
Arguments result {S R} _.
Arguments final {S R} _.
Arguments trace {S R} _.

Definition after {S R : Type} (e : event) (r : Run S R) : Run S R :=
  mkRun (result r) (final r) (e :: trace r).

Fixpoint run {S R : Type} (db : Store S) (p : prog R) (st : S) : Run S R :=
  match p with
  | Ret r => mkRun (Returned r) st []
  | Throw e => mkRun (Uncaught e) st []
  | Console l args k => after (Logged l args) (run db k st)
  | SelectSingle s k =>
      let (a, st') := single db s st in after (Selected s) (run db (k a) st')
  | UpdateClicks i c k =>
      let (a, st') := update db i c st in after (Updated i c) (run db (k a) st')
  end.

Definition is_store_call (e : event) : bool :=
  match e with
  | Logged _ _ => false
  | Selected _ | Updated _ _ => true
  end.

(** The calls to the store in a trace. *)
Definition store_calls (t : list event) : list event := filter is_store_call t.

(** ** Reading a response *)

Definition init_of (r : Response) : ResponseInit :=
  match r with
  | NextResponse_redirect _ i | NextResponse_json _ i | new_Response _ i => i
  end.

Fixpoint assoc (name : jsstring) (hs : list (jsstring * jsstring))
  : option jsstring :=
  match hs with
  | [] => None
  | (k, v) :: hs' => if streq k name then Some v else assoc name hs'
  end.

Definition header (name : string) (r : Response) : option jsstring :=
  assoc (js name) (headers (init_of r)).

(** Where a response sends the caller: the target of a redirect, or the
    URL an HTML page opens. *)
Definition destination (r : Response) : option jsstring :=
  match r with
  | NextResponse_redirect url _ => Some url
  | new_Response (SpinnerPage _ url) _ | new_Response (MinimalPage _ url) _ =>
      Some url
  | NextResponse_json _ _ => None
  end.

(** The directives of a Cache-Control value: the parts between commas,
    without leading blanks. *)
Fixpoint directives_from (cur : jsstring) (s : jsstring) : list jsstring :=
  match s with
  | [] => [trimStart (rev cur)]
  | c :: r =>
      if (c =? 44)%N then trimStart (rev cur) :: directives_from [] r
      else directives_from (c :: cur) r
  end.

Definition directives (s : jsstring) : list jsstring := directives_from [] s.

Fixpoint strip_prefix (p s : jsstring) : option jsstring :=
  match p, s with
  | [], _ => Some s
  | x :: p', y :: s' => if (x =? y)%N then strip_prefix p' s' else None
  | _ :: _, [] => None
  end.

Fixpoint digits_value (acc : Z) (s : jsstring) : option Z :=
  match s with
  | [] => Some acc
  | c :: r =>
      if ((48 <=? c) && (c <=? 57))%N
      then digits_value (10 * acc + (Z.of_N c - 48)) r
      else None
  end.

Fixpoint first_max_age (ds : list jsstring) : option Z :=
  match ds with
  | [] => None
  | d :: ds' =>
      match strip_prefix (js "max-age=") d with
      | Some (c :: v) => digits_value 0 (c :: v)
      | _ => first_max_age ds'
      end
  end.

(** The cache lifetime in seconds a Cache-Control value grants, if any. *)
Definition max_age (cc : jsstring) : option Z := first_max_age (directives cc).

(** A Cache-Control value that forbids storing the response. *)
Definition no_store (cc : jsstring) : bool :=
  existsb (streq (js "no-store")) (directives cc).

(** The cache lifetime a response grants. *)
Definition cache_lifetime (r : Response) : option Z :=
  match header "Cache-Control" r with
  | Some cc => max_age cc
  | None => None
  end.

(** A response whose Cache-Control forbids storing it. *)
Definition caching_disabled (r : Response) : bool :=
  match header "Cache-Control" r with
  | Some cc => no_store cc
  | None => false
  end.

(** ** An in-memory table

    The table [affiliate_links] with the behaviour of the client calls:
    [single()] answers with the row when exactly one row passes both
    filters and with the error PGRST116 otherwise; the update sets the
    counter of the rows of the given id and returns them. *)

Definition Table : Type := list AffiliateLink.

Definition matches (s : jsstring) (row : AffiliateLink) : bool :=
  streq (slug row) s && active row.

Definition no_rows : PostgrestError :=
  mkPostgrestError (js "PGRST116")
    (js "JSON object requested, multiple (or no) rows returned").

Definition table_single (s : jsstring) (t : Table) : settled SingleReply * Table :=
  match filter (matches s) t with
  | [row] => (Fulfilled (mkSingleReply (Some row) None), t)
  | _ => (Fulfilled (mkSingleReply None (Some no_rows)), t)
  end.

Definition set_clicks (c : Z) (row : AffiliateLink) : AffiliateLink :=
  mkAffiliateLink (id row) (slug row) (redirect_url row) (fallback_url row)
    (Some c) (created_at row) (active row).

Definition write_clicks (i : jsstring) (c : Z) (t : Table) : Table :=
  map (fun row => if streq (id row) i then set_clicks c row else row) t.

Definition table_update (i : jsstring) (c : Z) (t : Table)
  : settled UpdateReply * Table :=
  let t' := write_clicks i c t in
  (Fulfilled (mkUpdateReply (Some (filter (fun row => streq (id row) i) t')) None),
   t').

Definition table_store : Store Table := mkStore table_single table_update.

(** The same table when writes are refused: the update answers with an
    error and stores nothing. *)
Definition permission_denied : PostgrestError :=
  mkPostgrestError (js "42501") (js "permission denied for table affiliate_links").

Definition readonly_store : Store Table :=
  mkStore table_single
    (fun _ _ t => (Fulfilled (mkUpdateReply None (Some permission_denied)), t)).

(** A store that is down: every promise is rejected. *)
Definition unreachable_store : Store unit :=
  mkStore (fun _ st => (Rejected (Rejection (js "fetch failed")), st))
          (fun _ _ st => (Rejected (Rejection (js "fetch failed")), st)).

(** ** Platforms to run examples on

    [new URL] restricted to the two forms [http://host...] and
    [https://host...] with a host that is not empty and ends at the first
    slash; lower-casing leaves text outside ASCII as it is; a header value
    is taken when it is printable ASCII text; the examples keep to safe
    integers, beyond which the digits are printed as they are. *)

Fixpoint until_slash (s : jsstring) : jsstring :=
  match s with
  | [] => []
  | c :: r => if (c =? 47)%N then [] else c :: until_slash r
  end.

Definition sample_URL_parse (s : jsstring) : option URL :=
  match strip_prefix (js "https://") s with
  | Some (c :: r) =>
      if (c =? 47)%N then None else Some (mkURL (js "https:") (until_slash (c :: r)))
  | Some [] => None
  | None =>
      match strip_prefix (js "http://") s with
      | Some (c :: r) =>
          if (c =? 47)%N then None else Some (mkURL (js "http:") (until_slash (c :: r)))
      | _ => None
      end
  end.

Definition printable_ascii (s : jsstring) : bool :=
  forallb (fun c => (32 <=? c) && (c <=? 126))%N s.

Definition sample_platform : Platform :=
  {| unicodeToLowerCase := fun s => s;
     URL_parse := sample_URL_parse;
     legalHeaderValue := printable_ascii;
     bigNumberToString := decimal |}.

(** The same with a parser that also reads [ftp://host...], a URL that
    parses and whose scheme is neither http nor https. *)
Definition ftp_URL_parse (s : jsstring) : option URL :=
  match sample_URL_parse s with
  | Some url => Some url
  | None =>
      match strip_prefix (js "ftp://") s with
      | Some (c :: r) =>
          if (c =? 47)%N then None else Some (mkURL (js "ftp:") (until_slash (c :: r)))
      | _ => None
      end
  end.

Definition ftp_platform : Platform :=
  {| unicodeToLowerCase := fun s => s;
     URL_parse := ftp_URL_parse;
     legalHeaderValue := printable_ascii;
     bigNumberToString := decimal |}.

(** ** Notions the properties are stated with *)

Section Notions.

Context {P : Platform}.

(** A slug that passes both guards of lines 33 and 46 and so reaches the
    lookup. *)
Definition passes_validation (slug : jsstring) : bool :=
  negb (is_empty slug || streq (trim slug) (js ""))
  && streq (sanitize slug) (toLowerCase (trim slug)).

(** The value of [redirectUrl] after line 126. *)
Definition final_url (link : AffiliateLink) : jsstring :=
  if isValidUrl (first_choice link) then first_choice link else DEFAULT_URL.

(** The validity the specification asks of a destination: the string
    parses as an absolute URL and the scheme of the parsed URL is http or
    https. *)
Definition http_or_https_URL (s : jsstring) : bool :=
  match URL_parse s with
  | Some url =>
      if streq (protocol url) (js "http:") then true
      else streq (protocol url) (js "https:")
  | None => false
  end.

(** A candidate destination the cascade accepts: not empty, and an
    absolute URL with scheme http or https. *)
Definition usable (u : option jsstring) : bool :=
  match u with
  | Some s => negb (is_empty s) && http_or_https_URL s
  | None => false
  end.

(** The three-way cascade, as the specification words it: the primary
    URL when usable, otherwise the fallback when usable, otherwise the
    default. *)
Definition cascade (link : AffiliateLink) : jsstring :=
  match redirect_url link, fallback_url link with
  | Some primary, _ =>
      if usable (Some primary) then primary
      else match fallback_url link with
           | Some fallback => if usable (Some fallback) then fallback else DEFAULT_URL
           | None => DEFAULT_URL
           end
  | None, Some fallback => if usable (Some fallback) then fallback else DEFAULT_URL
  | None, None => DEFAULT_URL
  end.

(** The response of the tracked path when every header value is taken. *)
Definition tracked_response (v : variant) (link : AffiliateLink) : Response :=
  match v with
  | RedirectRoute =>
      NextResponse_redirect (final_url link) (mkInit 301 (tracking_headers link))
  | SpinnerPageRoute =>
      match URL_parse (final_url link) with
      | Some url =>
          new_Response (SpinnerPage (hostname url) (final_url link))
            (mkInit 200 ((js "Content-Type", js "text/html; charset=utf-8")
                         :: tracking_headers link))
      | None => default_redirect "public, max-age=60"
      end
  | MinimalPageRoute =>
      match URL_parse (final_url link) with
      | Some url =>
          new_Response (MinimalPage (hostname url) (final_url link))
            (mkInit 200 ((js "Content-Type", js "text/html; charset=utf-8")
                         :: tracking_headers link))
      | None => default_redirect "public, max-age=60"
      end
  end.

(** The response of the tracked path: what [choose_and_respond] returns
    inside the [try]/[catch] of [GET].  When the id of the row is not a
    legal header value the constructor throws and the [catch] block
    answers. *)
Definition emitted (v : variant) (link : AffiliateLink) : Response :=
  if legalHeaderValue (id link) then tracked_response v link
  else default_redirect "public, max-age=60".

(** A 301 redirect to the default URL. *)
Definition is_default_redirect (r : Response) : bool :=
  match r with
  | NextResponse_redirect url init => streq url DEFAULT_URL && (status init =? 301)
  | _ => false
  end.

(** A response that carries the two tracking headers. *)
Definition is_tracked (r : Response) : bool :=
  match header "X-Cogiflow-Affiliate" r, header "X-Cogiflow-Clicks" r with
  | Some _, Some _ => true
  | _, _ => false
  end.

End Notions.

(** ** Several requests

    Requests are handled one after another, or together: an [async]
    handler runs until it awaits a call to the store, and while it waits
    another request may take its turn.  The store answers one call at a
    time. *)

(** The handler runs up to its next call to the store and the store
    answers it: the handler that remains, and the new state. *)
Fixpoint step {S R : Type} (db : Store S) (p : prog R) (st : S) : prog R * S :=
  match p with
  | Ret _ | Throw _ => (p, st)
  | Console _ _ k => step db k st
  | SelectSingle s k => let (a, st') := single db s st in (k a, st')
  | UpdateClicks i c k => let (a, st') := update db i c st in (k a, st')
  end.

(** Two requests in flight.  The schedule says whose call the store
    answers next ([true]: the first request's); when it ends, the first
    request runs to its end and then the second. *)
Fixpoint in_flight {S R : Type} (db : Store S) (schedule : list bool)
  (p1 p2 : prog R) (st : S) : completion R * completion R * S :=
  match schedule with
  | [] =>
      let r1 := run db p1 st in
      let r2 := run db p2 (final r1) in
      (result r1, result r2, final r2)
  | true :: rest => let (p1', st') := step db p1 st in in_flight db rest p1' p2 st'
  | false :: rest => let (p2', st') := step db p2 st in in_flight db rest p1 p2' st'
  end.

(** The table after [k] requests for the same slug, one after another. *)
Fixpoint after_requests {P : Platform} (v : variant) (slug : jsstring)
  (k : nat) (t : Table) : Table :=
  match k with
  | O => t
  | Datatypes.S k' =>
      after_requests v slug k' (final (run table_store (GET v (Some slug)) t))
  end.

(** The rows of a table with their counters blanked: all that the table
    holds besides the counters. *)
Definition without_clicks (t : Table) : list AffiliateLink :=
  map (set_clicks 0) t.

(** * Properties *)

(** ** Strings *)

Lemma streq_eq (a b : jsstring) : streq a b = true <-> a = b.
Proof.
  revert b; induction a as [|x a IH]; intros [|y b]; simpl;
    try (split; congruence).
  rewrite andb_true_iff, N.eqb_eq, IH. split.
  - intros [-> ->]; reflexivity.
  - intros E; injection E as -> ->; split; reflexivity.
Qed.

Lemma streq_refl (a : jsstring) : streq a a = true.
Proof. apply streq_eq; reflexivity. Qed.

Lemma streq_neq (a b : jsstring) : streq a b = false <-> a <> b.
Proof.
  rewrite <- streq_eq. destruct (streq a b); split; congruence.
Qed.

Ltac bool_hyps :=
  repeat match goal with
    | H : (_ || _)%bool = true |- _ => apply orb_true_iff in H; destruct H as [H|H]
    | H : (_ && _)%bool = true |- _ => apply andb_true_iff in H; destruct H
    | H : (_ <=? _)%N = true |- _ => apply N.leb_le in H
    | H : (_ =? _)%N = true |- _ => apply N.eqb_eq in H
    end.

Ltac decide_atoms :=
  repeat match goal with
    | |- context [(?a <=? ?b)%N] =>
        let E := fresh "E" in
        destruct (a <=? b)%N eqn:E;
        [apply N.leb_le in E | apply N.leb_gt in E]; try lia
    | |- context [(?a <? ?b)%N] =>
        let E := fresh "E" in
        destruct (a <? b)%N eqn:E;
        [apply N.ltb_lt in E | apply N.ltb_ge in E]; try lia
    | |- context [(?a =? ?b)%N] =>
        let E := fresh "E" in
        destruct (a =? b)%N eqn:E;
        [apply N.eqb_eq in E | apply N.eqb_neq in E]; try lia
    end.

(** No character of the class is white space. *)
Lemma in_class_not_white (c : N) : in_class c = true -> isWhiteSpace c = false.
Proof.
  unfold in_class, isWhiteSpace; intros H; bool_hyps;
    decide_atoms; reflexivity.
Qed.

(** The characters of the class are ASCII and have no upper case. *)
Lemma in_class_ascii (c : N) : in_class c = true -> isAscii c = true.
Proof.
  unfold in_class, isAscii; intros H; bool_hyps; decide_atoms; reflexivity.
Qed.

Lemma in_class_lower (c : N) : in_class c = true -> asciiToLower c = c.
Proof.
  unfold in_class, asciiToLower; intros H; bool_hyps;
    decide_atoms; reflexivity.
Qed.

Lemma forallb_weaken {A : Type} (f g : A -> bool) (l : list A) :
  (forall x, f x = true -> g x = true) ->
  forallb f l = true -> forallb g l = true.
Proof.
  intros W; rewrite !forallb_forall; intros H x Hx; apply W, H, Hx.
Qed.

Lemma filter_id_forallb {A : Type} (f : A -> bool) (l : list A) :
  filter f l = l <-> forallb f l = true.
Proof.
  split.
  - intros E; apply forallb_forall; intros x Hx.
    rewrite <- E in Hx; apply filter_In in Hx; apply Hx.
  - induction l as [|x l IH]; simpl; [reflexivity|].
    intros H; apply andb_true_iff in H as [-> H]; rewrite IH by exact H.
    reflexivity.
Qed.

Lemma trimStart_class (s : jsstring) :
  forallb in_class s = true -> trimStart s = s.
Proof.
  destruct s as [|c r]; simpl; [reflexivity|].
  intros H; apply andb_true_iff in H as [H _].
  rewrite (in_class_not_white c H); reflexivity.
Qed.

Lemma forallb_rev {A : Type} (f : A -> bool) (l : list A) :
  forallb f (rev l) = forallb f l.
Proof.
  destruct (forallb f l) eqn:E.
  - apply forallb_forall; intros x Hx; apply in_rev in Hx.
    rewrite forallb_forall in E; apply E, Hx.
  - destruct (forallb f (rev l)) eqn:E'; [|reflexivity].
    rewrite forallb_forall in E'.
    assert (forallb f l = true) as C; [|congruence].
    apply forallb_forall; intros x Hx; apply E', in_rev.
    rewrite rev_involutive; exact Hx.
Qed.

(** Trimming leaves a string of class characters as it is. *)
Lemma trim_class (s : jsstring) : forallb in_class s = true -> trim s = s.
Proof.
  intros H; unfold trim, trimEnd.
  rewrite (trimStart_class s H), trimStart_class.
  - apply rev_involutive.
  - rewrite forallb_rev; exact H.
Qed.

Section StringProperties.

Context {P : Platform}.

(** So does lower-casing. *)
Lemma toLowerCase_class (s : jsstring) :
  forallb in_class s = true -> toLowerCase s = s.
Proof.
  intros H; unfold toLowerCase.
  rewrite (forallb_weaken _ _ s in_class_ascii H).
  rewrite forallb_forall in H.
  rewrite <- (map_id s) at 2. apply map_ext_in.
  intros c Hc; apply in_class_lower, H, Hc.
Qed.

Lemma sanitize_in_class (s : jsstring) :
  forallb in_class (sanitize s) = true.
Proof.
  apply forallb_forall; intros c Hc.
  unfold sanitize, replace_outside_class in Hc.
  apply filter_In in Hc; apply Hc.
Qed.

Lemma sanitize_class (s : jsstring) :
  forallb in_class s = true -> sanitize s = s.
Proof.
  intros H; unfold sanitize, replace_outside_class.
  rewrite (trim_class s H), (toLowerCase_class s H).
  apply filter_id_forallb, H.
Qed.

(** A character outside the class makes the sanitized slug shorter than
    the trimmed, lower-cased one. *)
Lemma outside_class_detected (t : jsstring) (c : N) :
  In c t -> in_class c = false -> streq (replace_outside_class t) t = false.
Proof.
  intros Hin Hc; apply streq_neq; intros E.
  apply filter_id_forallb in E; rewrite forallb_forall in E.
  rewrite (E c Hin) in Hc; discriminate.
Qed.

End StringProperties.

(** ** Runs of the handler *)

Arguments js : simpl never.
Arguments default_redirect : simpl never.
Arguments sanitize : simpl never.
Arguments toLowerCase : simpl never.
Arguments trim : simpl never.
Arguments Number_add : simpl never.
Arguments Number_toString : simpl never.
Arguments first_choice : simpl never.
Arguments tracking_headers : simpl never.

Section Runs.

Context {P : Platform} {S : Type}.
Variable db : Store S.

(** A missing slug: one console line, then the default redirect. *)
Lemma run_GET_missing (v : variant) (st : S) :
  run db (GET v None) st
  = mkRun (Returned (default_redirect "public, max-age=300")) st
      [Logged Error [LString (js "Invalid or missing slug parameter")]].
Proof. reflexivity. Qed.

Lemma run_GET_blank (v : variant) (slug : jsstring) (st : S) :
  is_empty slug || streq (trim slug) (js "") = true ->
  run db (GET v (Some slug)) st
  = mkRun (Returned (default_redirect "public, max-age=300")) st
      [Logged Error [LString (js "Invalid or missing slug parameter")]].
Proof. intros H; unfold GET, GET_try; rewrite H; reflexivity. Qed.

Lemma run_GET_invalid (v : variant) (slug : jsstring) (st : S) :
  is_empty slug || streq (trim slug) (js "") = false ->
  streq (sanitize slug) (toLowerCase (trim slug)) = false ->
  run db (GET v (Some slug)) st
  = mkRun (Returned (default_redirect "public, max-age=300")) st
      [Logged Error
         [LString (js "Slug contains invalid characters: " ++ slug)]].
Proof.
  intros H1 H2; unfold GET, GET_try; rewrite H1, H2; reflexivity.
Qed.

(** An accepted slug: the lookup is the first thing the run does. *)
Lemma run_GET_lookup (v : variant) (slug : jsstring) (st : S) :
  passes_validation slug = true ->
  run db (GET v (Some slug)) st
  = after (Selected (sanitize slug))
      (run db (try_catch (bind (await (fst (single db (sanitize slug) st)))
                            (after_lookup v (sanitize slug)))
                 GET_catch)
         (snd (single db (sanitize slug) st))).
Proof.
  unfold passes_validation; intros H.
  apply andb_true_iff in H as [H1 H2]; apply negb_true_iff in H1.
  unfold GET, GET_try; rewrite H1, H2; simpl.
  destruct (single db (sanitize slug) st); reflexivity.
Qed.

(** The tracked path after the update was answered. *)
Lemma run_choose_and_respond (v : variant) (q : jsstring)
  (link : AffiliateLink) (st : S) :
  let r := run db (try_catch (choose_and_respond v q link) GET_catch) st in
  result r = Returned (emitted v link) /\ final r = st
  /\ store_calls (trace r) = [].
Proof.
  unfold choose_and_respond, emitted, tracked_response, final_url.
  destruct (isValidUrl (first_choice link)) eqn:V; simpl;
    destruct v; simpl; unfold hostname_of, built;
    try (destruct (URL_parse _)); simpl;
    destruct (legalHeaderValue (id link)); simpl;
    repeat split; reflexivity.
Qed.

Lemma run_GET_lookup_rejected (v : variant) (slug : jsstring) (st st1 : S)
  (e : thrown) :
  passes_validation slug = true ->
  single db (sanitize slug) st = (Rejected e, st1) ->
  let r := run db (GET v (Some slug)) st in
  result r = Returned (default_redirect "public, max-age=60")
  /\ final r = st1
  /\ store_calls (trace r) = [Selected (sanitize slug)].
Proof.
  intros H E; rewrite (run_GET_lookup v slug st H), E; simpl.
  repeat split; reflexivity.
Qed.

Lemma run_GET_fetch_error (v : variant) (slug : jsstring) (st st1 : S)
  (reply : SingleReply) (e : PostgrestError) :
  passes_validation slug = true ->
  single db (sanitize slug) st = (Fulfilled reply, st1) ->
  fetchError reply = Some e ->
  let r := run db (GET v (Some slug)) st in
  result r = Returned (default_redirect
                         (if streq (code e) (js "PGRST116")
                          then "public, max-age=300"
                          else "public, max-age=60"))
  /\ final r = st1
  /\ store_calls (trace r) = [Selected (sanitize slug)].
Proof.
  intros H E F; rewrite (run_GET_lookup v slug st H), E; simpl.
  unfold after_lookup; rewrite F.
  destruct (streq (code e) (js "PGRST116")); simpl;
    repeat split; reflexivity.
Qed.

Lemma run_GET_no_row (v : variant) (slug : jsstring) (st st1 : S)
  (reply : SingleReply) :
  passes_validation slug = true ->
  single db (sanitize slug) st = (Fulfilled reply, st1) ->
  fetchError reply = None ->
  affiliateLink reply = None ->
  let r := run db (GET v (Some slug)) st in
  result r = Returned (default_redirect "public, max-age=300")
  /\ final r = st1
  /\ store_calls (trace r) = [Selected (sanitize slug)].
Proof.
  intros H E F D; rewrite (run_GET_lookup v slug st H), E; simpl.
  unfold after_lookup; rewrite F, D; simpl.
  repeat split; reflexivity.
Qed.

Lemma run_GET_update_rejected (v : variant) (slug : jsstring) (st st1 st2 : S)
  (reply : SingleReply) (link : AffiliateLink) (e : thrown) :
  passes_validation slug = true ->
  single db (sanitize slug) st = (Fulfilled reply, st1) ->
  fetchError reply = None ->
  affiliateLink reply = Some link ->
  update db (id link) (Number_add (clicks_or_0 link) 1) st1 = (Rejected e, st2) ->
  let r := run db (GET v (Some slug)) st in
  result r = Returned (default_redirect "public, max-age=60")
  /\ final r = st2
  /\ store_calls (trace r)
     = [Selected (sanitize slug);
        Updated (id link) (Number_add (clicks_or_0 link) 1)].
Proof.
  intros H E F D U; rewrite (run_GET_lookup v slug st H), E; simpl.
  unfold after_lookup; rewrite F, D; unfold track_and_respond; simpl.
  rewrite U; simpl. repeat split; reflexivity.
Qed.

(** The tracked path: the lookup found [link] and the update was
    answered, with or without an error. *)
Lemma run_GET_found (v : variant) (slug : jsstring) (st st1 st2 : S)
  (reply : SingleReply) (link : AffiliateLink) (u : UpdateReply) :
  passes_validation slug = true ->
  single db (sanitize slug) st = (Fulfilled reply, st1) ->
  fetchError reply = None ->
  affiliateLink reply = Some link ->
  update db (id link) (Number_add (clicks_or_0 link) 1) st1 = (Fulfilled u, st2) ->
  let r := run db (GET v (Some slug)) st in
  result r = Returned (emitted v link)
  /\ final r = st2
  /\ store_calls (trace r)
     = [Selected (sanitize slug);
        Updated (id link) (Number_add (clicks_or_0 link) 1)].
Proof.
  intros H E F D U; rewrite (run_GET_lookup v slug st H), E; simpl.
  unfold after_lookup; rewrite F, D; unfold track_and_respond; simpl.
  rewrite U; simpl.
  destruct (run_choose_and_respond v (sanitize slug) link st2)
    as (R1 & R2 & R3).
  destruct (updateError u); simpl; rewrite R1, R2, R3;
    repeat split; reflexivity.
Qed.

Lemma not_passing (slug : jsstring) :
  passes_validation slug = false ->
  is_empty slug || streq (trim slug) (js "") = true
  \/ (is_empty slug || streq (trim slug) (js "") = false
      /\ streq (sanitize slug) (toLowerCase (trim slug)) = false).
Proof.
  unfold passes_validation.
  destruct (is_empty slug || streq (trim slug) (js "")); simpl; auto.
Qed.

Lemma run_GET_not_passing (v : variant) (slug : jsstring) (st : S) :
  passes_validation slug = false ->
  let r := run db (GET v (Some slug)) st in
  result r = Returned (default_redirect "public, max-age=300")
  /\ final r = st /\ store_calls (trace r) = [].
Proof.
  intros H; destruct (not_passing slug H) as [B | [B I]].
  - rewrite (run_GET_blank v slug st B); repeat split; reflexivity.
  - rewrite (run_GET_invalid v slug st B I); repeat split; reflexivity.
Qed.

(** Every run of [GET] is of one of three kinds: the slug is refused
    before any call to the store; a call fails or finds nothing and the
    default redirect is returned; or a row is found and tracked. *)
Lemma GET_cases (v : variant) (slug : option jsstring) (st : S) :
  let r := run db (GET v slug) st in
  (result r = Returned (default_redirect "public, max-age=300")
   /\ final r = st /\ store_calls (trace r) = []
   /\ (slug = None \/ exists s, slug = Some s /\ passes_validation s = false))
  \/ (exists s, slug = Some s /\ passes_validation s = true
       /\ (result r = Returned (default_redirect "public, max-age=300")
           \/ result r = Returned (default_redirect "public, max-age=60"))
       /\ (store_calls (trace r) = [Selected (sanitize s)]
           \/ exists link,
               store_calls (trace r)
               = [Selected (sanitize s);
                  Updated (id link) (Number_add (clicks_or_0 link) 1)]))
  \/ (exists s link, slug = Some s /\ passes_validation s = true
       /\ result r = Returned (emitted v link)
       /\ store_calls (trace r)
          = [Selected (sanitize s);
             Updated (id link) (Number_add (clicks_or_0 link) 1)]).
Proof.
  destruct slug as [s|].
  2:{ left; rewrite run_GET_missing; simpl; auto. }
  destruct (passes_validation s) eqn:H.
  2:{ left. destruct (run_GET_not_passing v s st H) as (R1 & R2 & R3).
      repeat split; auto. right; exists s; auto. }
  right.
  destruct (single db (sanitize s) st) as [[reply|e] st1] eqn:E.
  2:{ left; exists s.
      destruct (run_GET_lookup_rejected v s st st1 e H E) as (R1 & _ & R3).
      auto. }
  destruct (fetchError reply) as [e|] eqn:F.
  { left; exists s.
    destruct (run_GET_fetch_error v s st st1 reply e H E F) as (R1 & _ & R3).
    destruct (streq (code e) (js "PGRST116")); auto. }
  destruct (affiliateLink reply) as [link|] eqn:D.
  2:{ left; exists s.
      destruct (run_GET_no_row v s st st1 reply H E F D) as (R1 & _ & R3).
      auto. }
  destruct (update db (id link) (Number_add (clicks_or_0 link) 1) st1)
    as [[u|e] st2] eqn:U.
  - right; exists s, link.
    destruct (run_GET_found v s st st1 st2 reply link u H E F D U)
      as (R1 & _ & R3). auto.
  - left; exists s.
    destruct (run_GET_update_rejected v s st st1 st2 reply link e H E F D U)
      as (R1 & _ & R3).
    repeat split; auto. right; exists link; exact R3.
Qed.

End Runs.

(** ** The destination of the tracked path *)

Section Destination.

Context {P : Platform}.

Lemma isValidUrl_parses (u : jsstring) :
  isValidUrl u = true -> exists url, URL_parse u = Some url.
Proof.
  unfold isValidUrl; destruct (URL_parse u) as [url|];
    [exists url; reflexivity | discriminate].
Qed.

(** The test of the code is the validity the specification asks for. *)
Lemma isValidUrl_http_or_https (s : jsstring) :
  isValidUrl s = http_or_https_URL s.
Proof.
  unfold isValidUrl, http_or_https_URL.
  destruct (URL_parse s) as [url|]; [|reflexivity].
  destruct (streq (protocol url) (js "http:")); reflexivity.
Qed.

(** What a valid URL is, spelled out. *)
Lemma http_or_https_URL_spec (s : jsstring) :
  http_or_https_URL s = true
  <-> exists url, URL_parse s = Some url
                  /\ (protocol url = js "http:" \/ protocol url = js "https:").
Proof.
  unfold http_or_https_URL; destruct (URL_parse s) as [url|]; split.
  - intros H; exists url; split; [reflexivity|].
    destruct (streq (protocol url) (js "http:")) eqn:E.
    + left; apply streq_eq, E.
    + right; apply streq_eq, H.
  - intros (url' & E & [H|H]); injection E as <-; rewrite H.
    + reflexivity.
    + rewrite streq_refl; destruct (streq (js "https:") (js "http:")); reflexivity.
  - discriminate.
  - intros (url' & E & _); discriminate.
Qed.

Lemma or_else_usable (fallback : option jsstring) :
  (if isValidUrl (or_else fallback DEFAULT_URL)
   then or_else fallback DEFAULT_URL else DEFAULT_URL)
  = match fallback with
    | Some f => if usable (Some f) then f else DEFAULT_URL
    | None => DEFAULT_URL
    end.
Proof.
  destruct fallback as [f|]; simpl.
  - rewrite <- (isValidUrl_http_or_https f). destruct (is_empty f); simpl.
    + destruct (isValidUrl DEFAULT_URL); reflexivity.
    + reflexivity.
  - destruct (isValidUrl DEFAULT_URL); reflexivity.
Qed.

(** The URL the code ends with is the one the cascade names. *)
Lemma final_url_cascade (link : AffiliateLink) :
  final_url link = cascade link.
Proof.
  unfold final_url, first_choice, cascade.
  destruct (redirect_url link) as [p|].
  - unfold usable at 1. rewrite <- (isValidUrl_http_or_https p).
    destruct (is_empty p); simpl.
    + rewrite or_else_usable; destruct (fallback_url link); reflexivity.
    + destruct (isValidUrl p) eqn:V; simpl.
      * rewrite V; reflexivity.
      * rewrite or_else_usable; destruct (fallback_url link); reflexivity.
  - rewrite or_else_usable; destruct (fallback_url link); reflexivity.
Qed.

Lemma final_url_valid (link : AffiliateLink) :
  isValidUrl DEFAULT_URL = true -> isValidUrl (final_url link) = true.
Proof.
  intros D; unfold final_url.
  destruct (isValidUrl (first_choice link)) eqn:V; assumption.
Qed.

Lemma final_url_unparsed (link : AffiliateLink) :
  URL_parse (final_url link) = None -> final_url link = DEFAULT_URL.
Proof.
  unfold final_url.
  destruct (isValidUrl (first_choice link)) eqn:V; [|reflexivity].
  destruct (isValidUrl_parses _ V) as [url E]; congruence.
Qed.

Lemma destination_tracked_response (v : variant) (link : AffiliateLink) :
  destination (tracked_response v link) = Some (final_url link).
Proof.
  destruct v; unfold tracked_response; try reflexivity;
    destruct (URL_parse (final_url link)) eqn:E; try reflexivity;
    rewrite (final_url_unparsed link E); reflexivity.
Qed.

(** With an id that is a legal header value the response goes where the
    code chose. *)
Lemma destination_emitted (v : variant) (link : AffiliateLink) :
  legalHeaderValue (id link) = true ->
  destination (emitted v link) = Some (final_url link).
Proof.
  intros L; unfold emitted; rewrite L; apply destination_tracked_response.
Qed.

(** Whatever the id, it goes there or to the default URL. *)
Lemma destination_emitted_any (v : variant) (link : AffiliateLink) :
  destination (emitted v link) = Some (final_url link)
  \/ destination (emitted v link) = Some DEFAULT_URL.
Proof.
  unfold emitted; destruct (legalHeaderValue (id link)).
  - left; apply destination_tracked_response.
  - right; reflexivity.
Qed.

(** The tracked response, when it is built, has the tracking headers of
    lines 135-137 whatever the copy of the route. *)
Lemma emitted_headers (v : variant) (link : AffiliateLink) :
  isValidUrl DEFAULT_URL = true ->
  legalHeaderValue (id link) = true ->
  header "Cache-Control" (emitted v link)
  = Some (js "no-cache, no-store, must-revalidate")
  /\ header "X-Cogiflow-Affiliate" (emitted v link) = Some (id link)
  /\ header "X-Cogiflow-Clicks" (emitted v link)
     = Some (Number_toString (Number_add (clicks_or_0 link) 1)).
Proof.
  intros D L.
  destruct (isValidUrl_parses _ (final_url_valid link D)) as [url E].
  unfold emitted; rewrite L.
  destruct v; unfold tracked_response; try rewrite E; repeat split; reflexivity.
Qed.

(** The [catch] block answers for an id that is not a legal header value. *)
Lemma emitted_illegal_id (v : variant) (link : AffiliateLink) :
  legalHeaderValue (id link) = false ->
  emitted v link = default_redirect "public, max-age=60".
Proof. intros L; unfold emitted; rewrite L; reflexivity. Qed.

Lemma emitted_kind (v : variant) (link : AffiliateLink) :
  is_default_redirect (emitted v link) = true
  \/ is_tracked (emitted v link) = true.
Proof.
  unfold emitted; destruct (legalHeaderValue (id link)); [|left; reflexivity].
  destruct v; unfold tracked_response;
    try (destruct (URL_parse (final_url link)));
    (right; reflexivity) || (left; reflexivity).
Qed.

Lemma emitted_status (v : variant) (link : AffiliateLink) :
  status (init_of (emitted v link)) = 301
  \/ status (init_of (emitted v link)) = 200.
Proof.
  unfold emitted; destruct (legalHeaderValue (id link)); [|left; reflexivity].
  destruct v; unfold tracked_response;
    try (destruct (URL_parse (final_url link)));
    (left; reflexivity) || (right; reflexivity).
Qed.

End Destination.

(** Integers up to 2^53 in magnitude are numbers as they are. *)
Lemma Number_add_safe (n : Z) :
  isSafeInteger n = true -> Number_add n 1 = n + 1.
Proof.
  unfold isSafeInteger, Number_add, round_to_double; intros H.
  apply Z.leb_le in H.
  destruct (Z.abs (n + 1) <=? 2 ^ 53) eqn:E; [reflexivity|].
  apply Z.leb_gt in E. lia.
Qed.

(** ** Slug validation *)

(** C1.  A raw slug whose trimmed, lower-cased form has a character outside
    [a-z0-9-_] gets the default redirect (status 301, the default URL,
    max-age 300) from every copy of the route and against every store: the
    run makes no call to the store and leaves its state as it was.  The
    sanitized slug is only compared with the input, never looked up. *)
Theorem GET_rejects_disallowed_character :
  forall (P : Platform) (v : variant) (slug : jsstring)
         (S : Type) (db : Store S) (st : S) (c : N),
    In c (toLowerCase (trim slug)) ->
    in_class c = false ->
    let r := run db (GET v (Some slug)) st in
    result r = Returned (NextResponse_redirect DEFAULT_URL
                           (mkInit 301 [(js "Cache-Control",
                                         js "public, max-age=300")]))
    /\ store_calls (trace r) = []
    /\ final r = st.
Proof.
  intros P v slug S db st c Hin Hc.
  assert (passes_validation slug = false) as H.
  { unfold passes_validation, sanitize.
    rewrite (outside_class_detected _ c Hin Hc); apply andb_false_r. }
  destruct (run_GET_not_passing db v slug st H) as (R1 & R2 & R3).
  repeat split; assumption.
Qed.

(** The slug [../etc] of the specification, on the redirect route. *)
Lemma GET_rejects_disallowed_character_witness :
  let r := run unreachable_store
             (@GET sample_platform RedirectRoute (Some (js "../etc"))) tt in
  result r = Returned (NextResponse_redirect DEFAULT_URL
                         (mkInit 301 [(js "Cache-Control",
                                       js "public, max-age=300")]))
  /\ store_calls (trace r) = []
  /\ final r = tt.
Proof.
  apply (GET_rejects_disallowed_character sample_platform RedirectRoute
           (js "../etc") unit unreachable_store tt 46%N).
  - vm_compute; left; reflexivity.
  - reflexivity.
Defined.

(** C6.  A slug that is missing, empty, or blank after trimming gets the
    default redirect with a cache lifetime of 300 seconds, and the store is
    not queried. *)
Theorem GET_rejects_blank_slug :
  forall (P : Platform) (v : variant) (slug : option jsstring)
         (S : Type) (db : Store S) (st : S),
    (slug = None \/ exists s, slug = Some s /\ trim s = []) ->
    let r := run db (GET v slug) st in
    let response := NextResponse_redirect DEFAULT_URL
                      (mkInit 301 [(js "Cache-Control",
                                    js "public, max-age=300")]) in
    result r = Returned response
    /\ cache_lifetime response = Some 300
    /\ store_calls (trace r) = []
    /\ final r = st.
Proof.
  intros P v slug S db st H.
  assert (run db (GET v slug) st
          = mkRun (Returned (default_redirect "public, max-age=300")) st
              [Logged Error [LString (js "Invalid or missing slug parameter")]])
    as E.
  { destruct H as [-> | (s & -> & T)].
    - apply run_GET_missing.
    - apply run_GET_blank. rewrite T. apply orb_true_r. }
  simpl; rewrite E; simpl.
  repeat split; try reflexivity.
Qed.

(** A slug of three blanks. *)
Lemma GET_rejects_blank_slug_witness :
  let r := run table_store
             (@GET sample_platform MinimalPageRoute (Some (js "   "))) [] in
  let response := NextResponse_redirect DEFAULT_URL
                    (mkInit 301 [(js "Cache-Control",
                                  js "public, max-age=300")]) in
  result r = Returned response
  /\ cache_lifetime response = Some 300
  /\ store_calls (trace r) = []
  /\ final r = [].
Proof.
  apply (GET_rejects_blank_slug sample_platform MinimalPageRoute
           (Some (js "   ")) Table table_store []).
  right; exists (js "   "); split; reflexivity.
Defined.

(** C10.  Sanitizing is idempotent, and a slug that is looked up is a
    fixpoint of it: whatever the run, a slug [q] passed to the store is the
    trimmed, lower-cased raw input, has only characters of [a-z0-9-_], and
    sanitizes to itself; and every slug that passes the two guards is
    looked up. *)
Theorem looked_up_slug_is_sanitize_fixpoint :
  forall (P : Platform) (slug : jsstring),
    sanitize (sanitize slug) = sanitize slug
    /\ (forall (v : variant) (S : Type) (db : Store S) (st : S) (q : jsstring),
           In (Selected q) (trace (run db (GET v (Some slug)) st)) ->
           passes_validation slug = true
           /\ q = toLowerCase (trim slug)
           /\ forallb in_class q = true
           /\ sanitize q = q)
    /\ (forall (v : variant) (S : Type) (db : Store S) (st : S),
           passes_validation slug = true ->
           In (Selected (toLowerCase (trim slug)))
              (trace (run db (GET v (Some slug)) st))).
Proof.
  intros P slug.
  assert (passes_validation slug = true ->
          sanitize slug = toLowerCase (trim slug)) as Fix.
  { unfold passes_validation; intros H.
    apply andb_true_iff in H as [_ H]; apply streq_eq, H. }
  split; [apply sanitize_class, sanitize_in_class|].
  split.
  - intros v S db st q Hq.
    assert (In (Selected q) (store_calls (trace (run db (GET v (Some slug)) st))))
      as Hc by (apply filter_In; split; [exact Hq | reflexivity]).
    assert (passes_validation slug = true /\ q = sanitize slug) as [H ->].
    { destruct (GET_cases db v (Some slug) st)
        as [(_ & _ & R & _) | [(s & E & H & _ & R) | (s & link & E & H & _ & R)]].
      - rewrite R in Hc; destruct Hc.
      - injection E as <-. split; [exact H|].
        destruct R as [R | [link R]]; rewrite R in Hc; simpl in Hc;
          intuition congruence.
      - injection E as <-. split; [exact H|].
        rewrite R in Hc; simpl in Hc; intuition congruence. }
    repeat split; auto using sanitize_in_class.
    apply sanitize_class, sanitize_in_class.
  - intros v S db st H.
    rewrite <- (Fix H), (run_GET_lookup db v slug st H); simpl; auto.
Qed.

(** The slug [Tool ] of the specification reaches the store as [tool]. *)
Lemma looked_up_slug_is_sanitize_fixpoint_witness :
  In (Selected (js "tool"))
     (trace (run table_store
               (@GET sample_platform RedirectRoute (Some (js "Tool "))) [])).
Proof.
  apply (proj2 (proj2 (looked_up_slug_is_sanitize_fixpoint
                         sample_platform (js "Tool ")))
           RedirectRoute Table table_store []).
  reflexivity.
Defined.

(** ** Other methods *)

(** C8.  [POST], [PUT] and [DELETE] return status 405 with the JSON body
    [{"error": "Method not allowed"}]; against every store the run has an
    empty trace (no call to the store, no console output) and leaves the
    state of the store as it was. *)
Theorem other_methods_not_allowed :
  forall (S : Type) (db : Store S) (st : S) (h : prog Response),
    In h [POST; PUT; DELETE] ->
    run db h st
    = mkRun (Returned (NextResponse_json
                         [(js "error", js "Method not allowed")]
                         (mkInit 405 [])))
        st [].
Proof.
  intros S db st h [<- | [<- | [<- | []]]]; reflexivity.
Qed.

Lemma other_methods_not_allowed_witness :
  run table_store POST []
  = mkRun (Returned (NextResponse_json
                       [(js "error", js "Method not allowed")]
                       (mkInit 405 [])))
      [] [].
Proof.
  apply (other_methods_not_allowed Table table_store [] POST).
  left; reflexivity.
Defined.

(** ** The in-memory table *)

Lemma table_single_unique (q : jsstring) (t : Table) (link : AffiliateLink) :
  filter (matches q) t = [link] ->
  single table_store q t = (Fulfilled (mkSingleReply (Some link) None), t).
Proof. intros H; simpl; unfold table_single; rewrite H; reflexivity. Qed.

Lemma unique_match_in (q : jsstring) (t : Table) (link : AffiliateLink) :
  filter (matches q) t = [link] ->
  In link t /\ slug link = q /\ active link = true.
Proof.
  intros H.
  assert (In link (filter (matches q) t)) as Hin by (rewrite H; left; reflexivity).
  apply filter_In in Hin as [Hin M]; unfold matches in M.
  apply andb_true_iff in M as [M A]; apply streq_eq in M. auto.
Qed.

Lemma write_clicks_in (c : Z) (t : Table) (link : AffiliateLink) :
  In link t -> In (set_clicks c link) (write_clicks (id link) c t).
Proof.
  intros H; unfold write_clicks.
  apply in_map_iff; exists link; rewrite streq_refl; auto.
Qed.

Lemma write_clicks_stored (i : jsstring) (c : Z) (t : Table) (row : AffiliateLink) :
  In row (write_clicks i c t) -> id row = i -> clicks row = Some c.
Proof.
  unfold write_clicks; intros H E.
  apply in_map_iff in H as (row0 & H & _).
  destruct (streq (id row0) i) eqn:Q; subst row; [reflexivity|].
  apply streq_neq in Q; contradiction.
Qed.

(** ** The counter *)

(** C3.  Against every store, when the lookup finds a row whose counter
    holds the safe integer [n], the calls of the run are the lookup and the
    update of that row's id with [n + 1].  On the in-memory table, a
    resolution that matches exactly one
    active row whose counter holds the safe integer [n] makes two calls, the
    lookup and the update of that row's id with [n + 1]; afterwards the row
    is stored with the counter [n + 1], and so is every row of that id.
    For the record of the specification and the raw slug [Tool ]: the slug
    sanitizes to [tool] and the stored counter is 6; and on a platform
    whose URL parser accepts the primary URL and whose response
    constructors take the id of the record as a header value, the response
    sends the caller to [https://partner.example/x], with status 301 on
    the redirect route. *)
Theorem GET_increments_clicks :
  forall (P : Platform),
    (forall (v : variant) (slug : jsstring) (S : Type) (db : Store S)
            (st st1 : S) (reply : SingleReply) (link : AffiliateLink) (n : Z),
        passes_validation slug = true ->
        single db (sanitize slug) st = (Fulfilled reply, st1) ->
        fetchError reply = None ->
        affiliateLink reply = Some link ->
        clicks link = Some n ->
        isSafeInteger n = true ->
        store_calls (trace (run db (GET v (Some slug)) st))
        = [Selected (sanitize slug); Updated (id link) (n + 1)])
    /\ (forall (v : variant) (slug : jsstring) (t : Table)
            (link : AffiliateLink) (n : Z),
        passes_validation slug = true ->
        filter (matches (sanitize slug)) t = [link] ->
        clicks link = Some n ->
        isSafeInteger n = true ->
        let r := run table_store (GET v (Some slug)) t in
        store_calls (trace r)
        = [Selected (sanitize slug); Updated (id link) (n + 1)]
        /\ In (set_clicks (n + 1) link) (final r)
        /\ (forall row, In row (final r) -> id row = id link ->
                        clicks row = Some (n + 1)))
    /\ (forall (v : variant) (i created : jsstring),
           let tool := mkAffiliateLink i (js "tool")
                         (Some (js "https://partner.example/x"))
                         (Some (js "https://cogiflow.ai")) (Some 5) created true in
           let r := run table_store (GET v (Some (js "Tool "))) [tool] in
           sanitize (js "Tool ") = js "tool"
           /\ final r = [mkAffiliateLink i (js "tool")
                           (Some (js "https://partner.example/x"))
                           (Some (js "https://cogiflow.ai")) (Some 6) created true]
           /\ (isValidUrl (js "https://partner.example/x") = true ->
               legalHeaderValue i = true ->
               exists response,
                 result r = Returned response
                 /\ destination response = Some (js "https://partner.example/x")
                 /\ (v = RedirectRoute -> status (init_of response) = 301))).
Proof.
  intros P; split; [|split].
  - intros v slug S db st st1 reply link n H E F D C Safe.
    assert (Number_add (clicks_or_0 link) 1 = n + 1) as A.
    { unfold clicks_or_0; rewrite C; apply Number_add_safe, Safe. }
    rewrite <- A.
    destruct (update db (id link) (Number_add (clicks_or_0 link) 1) st1)
      as [[u|e] st2] eqn:U.
    + apply (run_GET_found db v slug st st1 st2 reply link u H E F D U).
    + apply (run_GET_update_rejected db v slug st st1 st2 reply link e
               H E F D U).
  - intros v slug t link n H U C Safe.
    assert (Number_add (clicks_or_0 link) 1 = n + 1) as A.
    { unfold clicks_or_0; rewrite C; apply Number_add_safe, Safe. }
    destruct (run_GET_found table_store v slug t t
                (write_clicks (id link) (n + 1) t)
                (mkSingleReply (Some link) None) link
                (mkUpdateReply
                   (Some (filter (fun row => streq (id row) (id link))
                            (write_clicks (id link) (n + 1) t))) None)
                H (table_single_unique _ t link U) eq_refl eq_refl)
      as (_ & R2 & R3).
    { rewrite A; reflexivity. }
    simpl; rewrite R2, R3, A. repeat split.
    + apply write_clicks_in, (unique_match_in _ t link U).
    + intros row Hrow E; exact (write_clicks_stored _ _ t row Hrow E).
  - intros v i created tool r.
    assert (passes_validation (js "Tool ") = true) as H by reflexivity.
    assert (sanitize (js "Tool ") = js "tool") as Q by reflexivity.
    split; [exact Q|].
    destruct (run_GET_found table_store v (js "Tool ") [tool] [tool]
                [set_clicks 6 tool]
                (mkSingleReply (Some tool) None) tool
                (mkUpdateReply (Some [set_clicks 6 tool]) None) H)
      as (R1 & R2 & _); try reflexivity.
    { simpl; unfold table_update, write_clicks; simpl.
      rewrite streq_refl; simpl. rewrite streq_refl; reflexivity. }
    fold r in R1, R2. split.
    + rewrite R2; reflexivity.
    + intros V L.
      exists (emitted v tool); split; [exact R1|]. split.
      * rewrite (destination_emitted v tool L), final_url_cascade.
        unfold cascade, usable; simpl.
        rewrite <- (isValidUrl_http_or_https (js "https://partner.example/x")), V.
        reflexivity.
      * intros ->; unfold emitted; simpl id; rewrite L; reflexivity.
Qed.

(** The scenario of the specification on the sample platform, and the same
    row found through the general statement. *)
Lemma GET_increments_clicks_witness :
  let tool := mkAffiliateLink (js "7f3c") (js "tool")
                (Some (js "https://partner.example/x"))
                (Some (js "https://cogiflow.ai")) (Some 5)
                (js "2024-01-01T00:00:00Z") true in
  let r := run table_store
             (@GET sample_platform RedirectRoute (Some (js "Tool "))) [tool] in
  (store_calls (trace r) = [Selected (js "tool"); Updated (js "7f3c") 6]
   /\ In (set_clicks 6 tool) (final r)
   /\ (forall row, In row (final r) -> id row = js "7f3c" ->
                   clicks row = Some 6))
  /\ (exists response,
         result r = Returned response
         /\ destination response = Some (js "https://partner.example/x")
         /\ (RedirectRoute = RedirectRoute -> status (init_of response) = 301)).
Proof.
  intros tool r; split.
  - apply (proj1 (proj2 (GET_increments_clicks sample_platform))
             RedirectRoute (js "Tool ") [tool] tool 5); reflexivity.
  - apply (proj2 (proj2 (proj2 (proj2 (GET_increments_clicks sample_platform))
                                 RedirectRoute (js "7f3c")
                                 (js "2024-01-01T00:00:00Z"))));
      reflexivity.
Defined.

(** ** The destination *)

(** C2.  The URL the code ends with for a row the lookup found is the
    three-way cascade: the primary URL when it is not empty and parses as
    an absolute URL whose scheme is http or https, otherwise the fallback
    URL when it is not empty and passes the same test, otherwise the
    default URL.  With a URL parser that accepts the default URL, the URL
    chosen always parses and its scheme is http or https.  When the run
    reaches the response (the update was answered) and the constructor
    takes the id of the row as a header value, the response sends the
    caller there. *)
Theorem destination_is_cascade :
  forall (P : Platform) (link : AffiliateLink),
    final_url link = cascade link
    /\ (isValidUrl DEFAULT_URL = true ->
        exists url,
          URL_parse (cascade link) = Some url
          /\ (protocol url = js "http:" \/ protocol url = js "https:"))
    /\ (forall (v : variant) (slug : jsstring)
               (S : Type) (db : Store S) (st st1 st2 : S)
               (reply : SingleReply) (u : UpdateReply),
           passes_validation slug = true ->
           single db (sanitize slug) st = (Fulfilled reply, st1) ->
           fetchError reply = None ->
           affiliateLink reply = Some link ->
           update db (id link) (Number_add (clicks_or_0 link) 1) st1
           = (Fulfilled u, st2) ->
           legalHeaderValue (id link) = true ->
           exists response,
             result (run db (GET v (Some slug)) st) = Returned response
             /\ destination response = Some (cascade link)).
Proof.
  intros P link.
  split; [apply final_url_cascade|]. split.
  - intros V. apply http_or_https_URL_spec.
    rewrite <- isValidUrl_http_or_https, <- final_url_cascade.
    apply final_url_valid, V.
  - intros v slug S db st st1 st2 reply u H E F D U L.
    destruct (run_GET_found db v slug st st1 st2 reply link u H E F D U)
      as (R1 & _ & _).
    exists (emitted v link); split; [exact R1|].
    rewrite (destination_emitted v link L), final_url_cascade; reflexivity.
Qed.

(** A row whose primary URL parses with the scheme [ftp:]: the fallback is
    chosen, its scheme is http, and the page opens it. *)
Lemma destination_is_cascade_witness :
  let row := mkAffiliateLink (js "9a1e") (js "make")
               (Some (js "ftp://files.example/make.zip"))
               (Some (js "http://make.example/home")) (Some 0)
               (js "2024-01-01T00:00:00Z") true in
  ftp_URL_parse (js "ftp://files.example/make.zip")
  = Some (mkURL (js "ftp:") (js "files.example"))
  /\ @cascade ftp_platform row = js "http://make.example/home"
  /\ (exists url,
         ftp_URL_parse (@cascade ftp_platform row) = Some url
         /\ (protocol url = js "http:" \/ protocol url = js "https:"))
  /\ (exists response,
         result (run table_store
                   (@GET ftp_platform SpinnerPageRoute (Some (js "make")))
                   [row])
         = Returned response
         /\ destination response = Some (@cascade ftp_platform row)).
Proof.
  intros row.
  destruct (destination_is_cascade ftp_platform row) as (C1 & C2 & C3).
  split; [reflexivity|]. split; [reflexivity|]. split.
  - apply C2; reflexivity.
  - apply (C3 SpinnerPageRoute (js "make") Table table_store
             [row] [row] [set_clicks 1 row]
             (mkSingleReply (Some row) None)
             (mkUpdateReply (Some [set_clicks 1 row]) None));
      reflexivity.
Defined.

(** ** Failures *)

(** C4.  Whatever the slug and however the store behaves, [GET] returns a
    response: no exception reaches the caller.  The response is the 301
    redirect to the default URL or the tracked response, with status 301 or
    200, never an error status; it is the default
    redirect when the lookup is rejected, when the lookup answers with an
    error or without a row, and when the update is rejected. *)
Theorem GET_never_throws :
  forall (P : Platform) (v : variant) (slug : option jsstring)
         (S : Type) (db : Store S) (st : S),
    let r := run db (GET v slug) st in
    (exists response,
        result r = Returned response
        /\ (is_default_redirect response = true \/ is_tracked response = true)
        /\ (status (init_of response) = 301 \/ status (init_of response) = 200))
    /\ (forall s a st1,
           slug = Some s ->
           passes_validation s = true ->
           single db (sanitize s) st = (a, st1) ->
           match a with
           | Rejected _ =>
               result r = Returned (default_redirect "public, max-age=60")
           | Fulfilled reply =>
               match fetchError reply, affiliateLink reply with
               | Some e, _ =>
                   exists response,
                     result r = Returned response
                     /\ is_default_redirect response = true
               | None, None =>
                   result r = Returned (default_redirect "public, max-age=300")
               | None, Some link =>
                   forall e st2,
                     update db (id link) (Number_add (clicks_or_0 link) 1) st1
                     = (Rejected e, st2) ->
                     result r = Returned (default_redirect "public, max-age=60")
               end
           end).
Proof.
  intros P v slug S db st r; split.
  - destruct (GET_cases db v slug st)
      as [(R & _) | [(s & _ & _ & R & _) | (s & link & _ & _ & R & _)]];
      fold r in R.
    + eexists; split; [exact R | split; left; reflexivity].
    + destruct R as [R|R]; eexists;
        (split; [exact R | split; left; reflexivity]).
    + eexists; split; [exact R | split; [apply emitted_kind|]].
      apply emitted_status.
  - intros s a st1 -> H E. destruct a as [reply|e].
    + destruct (fetchError reply) as [e|] eqn:F.
      * destruct (run_GET_fetch_error db v s st st1 reply e H E F) as (R & _).
        eexists; split; [exact R|].
        destruct (streq (code e) (js "PGRST116")); reflexivity.
      * destruct (affiliateLink reply) as [link|] eqn:D.
        -- intros e st2 U.
           apply (run_GET_update_rejected db v s st st1 st2 reply link e H E F D U).
        -- apply (run_GET_no_row db v s st st1 reply H E F D).
    + apply (run_GET_lookup_rejected db v s st st1 e H E).
Qed.

(** A store that rejects every promise. *)
Lemma GET_never_throws_witness :
  result (run unreachable_store
            (@GET sample_platform MinimalPageRoute (Some (js "tool"))) tt)
  = Returned (default_redirect "public, max-age=60").
Proof.
  exact (proj2 (GET_never_throws sample_platform MinimalPageRoute
                  (Some (js "tool")) unit unreachable_store tt)
           (js "tool") (Rejected (Rejection (js "fetch failed"))) tt
           eq_refl eq_refl eq_refl).
Defined.

(** C5.  Two stores that answer every lookup alike and answer every update,
    with an error or without one, get the same response from [GET]; and
    when the update of a found row answers with an error, the response
    still sends the caller to the destination the cascade names, provided
    the response constructor takes the id of the row as a header value
    (otherwise the [catch] block answers, after either outcome of the
    update alike). *)
Theorem update_outcome_does_not_change_response :
  forall (P : Platform) (v : variant) (slug : option jsstring)
         (S : Type) (db db' : Store S) (st : S),
    (forall q t, single db' q t = single db q t) ->
    (forall i c t, exists u t', update db i c t = (Fulfilled u, t')) ->
    (forall i c t, exists u t', update db' i c t = (Fulfilled u, t')) ->
    result (run db' (GET v slug) st) = result (run db (GET v slug) st)
    /\ (forall s reply link st1 u st2 e,
           slug = Some s ->
           passes_validation s = true ->
           single db' (sanitize s) st = (Fulfilled reply, st1) ->
           fetchError reply = None ->
           affiliateLink reply = Some link ->
           update db' (id link) (Number_add (clicks_or_0 link) 1) st1
           = (Fulfilled u, st2) ->
           updateError u = Some e ->
           legalHeaderValue (id link) = true ->
           exists response,
             result (run db' (GET v slug) st) = Returned response
             /\ destination response = Some (cascade link)).
Proof.
  intros P v slug S db db' st Same Ans Ans'; split.
  - destruct slug as [s|]; [|rewrite !run_GET_missing; reflexivity].
    destruct (passes_validation s) eqn:H.
    2:{ destruct (run_GET_not_passing db v s st H) as (R & _).
        destruct (run_GET_not_passing db' v s st H) as (R' & _).
        congruence. }
    destruct (single db (sanitize s) st) as [[reply|e] st1] eqn:E.
    2:{ pose proof E as E'; rewrite <- Same in E'.
        destruct (run_GET_lookup_rejected db v s st st1 e H E) as (R & _).
        destruct (run_GET_lookup_rejected db' v s st st1 e H E') as (R' & _).
        congruence. }
    pose proof E as E'; rewrite <- Same in E'.
    destruct (fetchError reply) as [e|] eqn:F.
    { destruct (run_GET_fetch_error db v s st st1 reply e H E F) as (R & _).
      destruct (run_GET_fetch_error db' v s st st1 reply e H E' F) as (R' & _).
      congruence. }
    destruct (affiliateLink reply) as [link|] eqn:D.
    2:{ destruct (run_GET_no_row db v s st st1 reply H E F D) as (R & _).
        destruct (run_GET_no_row db' v s st st1 reply H E' F D) as (R' & _).
        congruence. }
    destruct (Ans (id link) (Number_add (clicks_or_0 link) 1) st1)
      as (u & st2 & U).
    destruct (Ans' (id link) (Number_add (clicks_or_0 link) 1) st1)
      as (u' & st2' & U').
    destruct (run_GET_found db v s st st1 st2 reply link u H E F D U)
      as (R & _).
    destruct (run_GET_found db' v s st st1 st2' reply link u' H E' F D U')
      as (R' & _).
    congruence.
  - intros s reply link st1 u st2 e -> H E F D U _ L.
    destruct (run_GET_found db' v s st st1 st2 reply link u H E F D U)
      as (R & _).
    exists (emitted v link); split; [exact R|].
    rewrite (destination_emitted v link L), final_url_cascade; reflexivity.
Qed.

(** The table that refuses writes against the table that takes them. *)
Lemma update_outcome_does_not_change_response_witness :
  let tool := mkAffiliateLink (js "7f3c") (js "tool")
                (Some (js "https://partner.example/x"))
                (Some (js "https://cogiflow.ai")) (Some 5)
                (js "2024-01-01T00:00:00Z") true in
  result (run readonly_store
            (@GET sample_platform RedirectRoute (Some (js "tool"))) [tool])
  = result (run table_store
              (@GET sample_platform RedirectRoute (Some (js "tool"))) [tool]).
Proof.
  intros tool.
  apply (update_outcome_does_not_change_response sample_platform RedirectRoute
           (Some (js "tool")) Table table_store readonly_store [tool]).
  - intros q t; reflexivity.
  - intros i c t; eexists; eexists; reflexivity.
  - intros i c t; eexists; eexists; reflexivity.
Defined.

(** ** Cache policy *)

(** C7.  After a lookup that was answered: an error other than PGRST116
    gives the default redirect with a cache lifetime of 60 seconds; the
    error PGRST116 (no rows), or an answer without a row, gives it with a
    lifetime of 300 seconds; 60 is positive and less than 300; and the
    response to a found row (with a URL parser that accepts the default
    URL and response constructors that take the id of the row as a header
    value) carries the tracking headers and a Cache-Control that forbids
    storing and grants no lifetime.  When the constructors do not take the
    id, the [catch] block answers with the default redirect and a lifetime
    of 60 seconds. *)
Theorem cache_policy_by_outcome :
  forall (P : Platform) (v : variant) (slug : jsstring)
         (S : Type) (db : Store S) (st st1 : S) (reply : SingleReply),
    passes_validation slug = true ->
    single db (sanitize slug) st = (Fulfilled reply, st1) ->
    let r := run db (GET v (Some slug)) st in
    (forall e, fetchError reply = Some e -> code e <> js "PGRST116" ->
       exists response,
         result r = Returned response
         /\ is_default_redirect response = true
         /\ cache_lifetime response = Some 60)
    /\ (forall e, fetchError reply = Some e -> code e = js "PGRST116" ->
          exists response,
            result r = Returned response
            /\ is_default_redirect response = true
            /\ cache_lifetime response = Some 300)
    /\ (fetchError reply = None -> affiliateLink reply = None ->
          exists response,
            result r = Returned response
            /\ is_default_redirect response = true
            /\ cache_lifetime response = Some 300)
    /\ 0 < 60 < 300
    /\ (forall link u st2,
          fetchError reply = None -> affiliateLink reply = Some link ->
          update db (id link) (Number_add (clicks_or_0 link) 1) st1
          = (Fulfilled u, st2) ->
          isValidUrl DEFAULT_URL = true ->
          legalHeaderValue (id link) = true ->
          exists response,
            result r = Returned response
            /\ is_tracked response = true
            /\ header "Cache-Control" response
               = Some (js "no-cache, no-store, must-revalidate")
            /\ caching_disabled response = true
            /\ cache_lifetime response = None)
    /\ (forall link u st2,
          fetchError reply = None -> affiliateLink reply = Some link ->
          update db (id link) (Number_add (clicks_or_0 link) 1) st1
          = (Fulfilled u, st2) ->
          legalHeaderValue (id link) = false ->
          exists response,
            result r = Returned response
            /\ is_default_redirect response = true
            /\ cache_lifetime response = Some 60).
Proof.
  intros P v slug S db st st1 reply H E r.
  split; [|split; [|split; [|split; [lia|split]]]].
  - intros e F C.
    destruct (run_GET_fetch_error db v slug st st1 reply e H E F) as (R & _).
    apply streq_neq in C; rewrite C in R.
    eexists; split; [exact R|]; split; reflexivity.
  - intros e F C.
    destruct (run_GET_fetch_error db v slug st st1 reply e H E F) as (R & _).
    apply streq_eq in C; rewrite C in R.
    eexists; split; [exact R|]; split; reflexivity.
  - intros F D.
    destruct (run_GET_no_row db v slug st st1 reply H E F D) as (R & _).
    eexists; split; [exact R|]; split; reflexivity.
  - intros link u st2 F D U V L.
    destruct (run_GET_found db v slug st st1 st2 reply link u H E F D U)
      as (R & _).
    destruct (emitted_headers v link V L) as (C1 & C2 & C3).
    exists (emitted v link); split; [exact R|].
    unfold is_tracked, caching_disabled, cache_lifetime.
    rewrite C1, C2, C3. repeat split; reflexivity.
  - intros link u st2 F D U L.
    destruct (run_GET_found db v slug st st1 st2 reply link u H E F D U)
      as (R & _).
    rewrite (emitted_illegal_id v link L) in R.
    eexists; split; [exact R|]; split; reflexivity.
Qed.

(** A lookup answered with a connection error: 60 seconds. *)
Lemma cache_policy_by_outcome_witness :
  let timeout := mkPostgrestError (js "57014") (js "statement timeout") in
  let db : Store unit :=
    mkStore (fun _ st => (Fulfilled (mkSingleReply None (Some timeout)), st))
            (fun _ _ st => (Rejected (Rejection (js "fetch failed")), st)) in
  exists response,
    result (run db (@GET sample_platform RedirectRoute (Some (js "tool"))) tt)
    = Returned response
    /\ is_default_redirect response = true
    /\ cache_lifetime response = Some 60.
Proof.
  intros timeout db.
  apply (proj1 (cache_policy_by_outcome sample_platform RedirectRoute
                  (js "tool") unit db tt tt
                  (mkSingleReply None (Some timeout)) eq_refl eq_refl)
           timeout eq_refl).
  discriminate.
Defined.

(** ** The click header *)

(** C9.  For a found row whose counter (null read as 0) is a safe integer
    [n], a URL parser that accepts the default URL and response
    constructors that take the id of the row as a header value (so that
    the tracked response is built): whatever the update answers, with an
    error or without one, the response is the tracked one and its header
    X-Cogiflow-Clicks is [String(n + 1)], the decimal digits of [n + 1]
    when that is a safe integer too.  On the table that refuses writes the
    header is [n + 1] while the table is left as it was, so the row still
    holds [n]. *)
Theorem clicks_header_ignores_update_outcome :
  forall (P : Platform) (v : variant) (slug : jsstring) (link : AffiliateLink),
    passes_validation slug = true ->
    isValidUrl DEFAULT_URL = true ->
    legalHeaderValue (id link) = true ->
    isSafeInteger (clicks_or_0 link) = true ->
    (forall (S : Type) (db : Store S) (st st1 st2 : S)
            (reply : SingleReply) (u : UpdateReply),
        single db (sanitize slug) st = (Fulfilled reply, st1) ->
        fetchError reply = None ->
        affiliateLink reply = Some link ->
        update db (id link) (Number_add (clicks_or_0 link) 1) st1
        = (Fulfilled u, st2) ->
        exists response,
          result (run db (GET v (Some slug)) st) = Returned response
          /\ is_tracked response = true
          /\ header "X-Cogiflow-Clicks" response
             = Some (Number_toString (clicks_or_0 link + 1)))
    /\ (isSafeInteger (clicks_or_0 link + 1) = true ->
        Number_toString (clicks_or_0 link + 1) = decimal (clicks_or_0 link + 1))
    /\ (forall (t : Table),
           filter (matches (sanitize slug)) t = [link] ->
           let r := run readonly_store (GET v (Some slug)) t in
           final r = t
           /\ In link (final r)
           /\ exists response,
                result r = Returned response
                /\ header "X-Cogiflow-Clicks" response
                   = Some (Number_toString (clicks_or_0 link + 1))).
Proof.
  intros P v slug link H V L Safe.
  assert (forall (S : Type) (db : Store S) (st st1 st2 : S)
                 (reply : SingleReply) (u : UpdateReply),
             single db (sanitize slug) st = (Fulfilled reply, st1) ->
             fetchError reply = None ->
             affiliateLink reply = Some link ->
             update db (id link) (Number_add (clicks_or_0 link) 1) st1
             = (Fulfilled u, st2) ->
             final (run db (GET v (Some slug)) st) = st2
             /\ exists response,
                 result (run db (GET v (Some slug)) st) = Returned response
                 /\ is_tracked response = true
                 /\ header "X-Cogiflow-Clicks" response
                    = Some (Number_toString (clicks_or_0 link + 1))) as Main.
  { intros S db st st1 st2 reply u E F D U.
    destruct (run_GET_found db v slug st st1 st2 reply link u H E F D U)
      as (R1 & R2 & _).
    split; [exact R2|].
    destruct (emitted_headers v link V L) as (_ & C2 & C3).
    exists (emitted v link); split; [exact R1|]. split.
    - unfold is_tracked; rewrite C2, C3; reflexivity.
    - rewrite C3, (Number_add_safe _ Safe); reflexivity. }
  split; [|split].
  - intros S db st st1 st2 reply u E F D U.
    apply (Main S db st st1 st2 reply u E F D U).
  - intros S1; unfold Number_toString; rewrite S1; reflexivity.
  - intros t U r.
    destruct (Main Table readonly_store t t t
                (mkSingleReply (Some link) None)
                (mkUpdateReply None (Some permission_denied)))
      as (R2 & response & R1 & _ & C); try reflexivity.
    { simpl; unfold table_single; rewrite U; reflexivity. }
    fold r in R1, R2. rewrite R2. split; [reflexivity|]. split.
    + apply (unique_match_in _ t link U).
    + exists response; auto.
Qed.

(** The record of the specification on the table that refuses writes: the
    header says 6, the table still says 5. *)
Lemma clicks_header_ignores_update_outcome_witness :
  let tool := mkAffiliateLink (js "7f3c") (js "tool")
                (Some (js "https://partner.example/x"))
                (Some (js "https://cogiflow.ai")) (Some 5)
                (js "2024-01-01T00:00:00Z") true in
  let r := run readonly_store
             (@GET sample_platform RedirectRoute (Some (js "Tool "))) [tool] in
  final r = [tool]
  /\ In tool (final r)
  /\ exists response,
       result r = Returned response
       /\ header "X-Cogiflow-Clicks" response = Some (js "6").
Proof.
  intros tool.
  apply (proj2 (proj2 (clicks_header_ignores_update_outcome sample_platform
                         RedirectRoute (js "Tool ") tool
                         eq_refl eq_refl eq_refl eq_refl)) [tool]).
  reflexivity.
Defined.

(** * Further properties of the route *)

(** ** What of the slug the handler depends on *)

Lemma trimStart_idem (s : jsstring) : trimStart (trimStart s) = trimStart s.
Proof.
  induction s as [|c r IH]; simpl; [reflexivity|].
  destruct (isWhiteSpace c) eqn:W; [exact IH|].
  simpl; rewrite W; reflexivity.
Qed.

Lemma trimStart_snoc (l : jsstring) (x : N) :
  isWhiteSpace x = false -> trimStart (l ++ [x]) = trimStart l ++ [x].
Proof.
  intros W; induction l as [|c r IH]; simpl.
  - rewrite W; reflexivity.
  - destruct (isWhiteSpace c); [exact IH | reflexivity].
Qed.

(** Trimming the end keeps a first character that is not white space. *)
Lemma trimEnd_cons (x : N) (r : jsstring) :
  isWhiteSpace x = false -> trimEnd (x :: r) = x :: trimEnd r.
Proof.
  intros W; unfold trimEnd; simpl.
  rewrite (trimStart_snoc _ x W), rev_app_distr; reflexivity.
Qed.

Lemma trimEnd_idem (s : jsstring) : trimEnd (trimEnd s) = trimEnd s.
Proof.
  unfold trimEnd; rewrite rev_involutive, trimStart_idem; reflexivity.
Qed.

Lemma trimStart_head (s : jsstring) :
  trimStart s = [] \/ exists x r, trimStart s = x :: r /\ isWhiteSpace x = false.
Proof.
  induction s as [|c r IH]; simpl; [left; reflexivity|].
  destruct (isWhiteSpace c) eqn:W; [exact IH|].
  right; exists c, r; auto.
Qed.

(** [s.trim().trim()] is [s.trim()]. *)
Lemma trim_idem (s : jsstring) : trim (trim s) = trim s.
Proof.
  assert (trim s = [] \/ exists x r, trim s = x :: trimEnd r
                                   /\ isWhiteSpace x = false) as [E | (x & r & E & W)].
  { unfold trim.
    destruct (trimStart_head s) as [E | (x & r & E & W)]; rewrite E.
    - left; reflexivity.
    - right; exists x, r; split; [apply trimEnd_cons, W | exact W]. }
  - rewrite E; reflexivity.
  - rewrite E; unfold trim; simpl; rewrite W.
    rewrite (trimEnd_cons x _ W), trimEnd_idem; reflexivity.
Qed.

Lemma trimStart_incl (s : jsstring) (c : N) : In c (trimStart s) -> In c s.
Proof.
  induction s as [|x r IH]; simpl; [auto|].
  destruct (isWhiteSpace x); simpl; auto.
Qed.

Lemma trim_incl (s : jsstring) (c : N) : In c (trim s) -> In c s.
Proof.
  unfold trim, trimEnd; intros H.
  apply in_rev, trimStart_incl in H.
  apply in_rev in H. apply trimStart_incl, H.
Qed.

Lemma isWhiteSpace_range (c : N) :
  isWhiteSpace c = true -> (c <= 32 \/ 160 <= c)%N.
Proof.
  unfold isWhiteSpace; intros H; bool_hyps; lia.
Qed.

(** Lower-casing an ASCII character does not make or unmake white space. *)
Lemma isWhiteSpace_asciiToLower (c : N) :
  isWhiteSpace (asciiToLower c) = isWhiteSpace c.
Proof.
  unfold asciiToLower.
  destruct ((65 <=? c) && (c <=? 90))%N eqn:U; [|reflexivity].
  apply andb_true_iff in U as [U1 U2].
  apply N.leb_le in U1; apply N.leb_le in U2.
  destruct (isWhiteSpace (c + 32)) eqn:W1;
    [apply isWhiteSpace_range in W1; lia|].
  destruct (isWhiteSpace c) eqn:W2;
    [apply isWhiteSpace_range in W2; lia | reflexivity].
Qed.

Lemma trimStart_map (f : N -> N) (s : jsstring) :
  (forall c, isWhiteSpace (f c) = isWhiteSpace c) ->
  trimStart (map f s) = map f (trimStart s).
Proof.
  intros W; induction s as [|c r IH]; simpl; [reflexivity|].
  rewrite W; destruct (isWhiteSpace c); [exact IH | reflexivity].
Qed.

Lemma trim_map (f : N -> N) (s : jsstring) :
  (forall c, isWhiteSpace (f c) = isWhiteSpace c) ->
  trim (map f s) = map f (trim s).
Proof.
  intros W; unfold trim, trimEnd.
  rewrite (trimStart_map f s W), <- map_rev, (trimStart_map f _ W), map_rev.
  reflexivity.
Qed.

Lemma asciiToLower_idem (c : N) : asciiToLower (asciiToLower c) = asciiToLower c.
Proof.
  unfold asciiToLower.
  destruct ((65 <=? c) && (c <=? 90))%N eqn:U; [|rewrite U; reflexivity].
  apply andb_true_iff in U as [U1 U2]; apply N.leb_le in U1.
  assert ((c + 32 <=? 90)%N = false) as -> by (apply N.leb_gt; lia).
  rewrite andb_false_r; reflexivity.
Qed.

Lemma asciiToLower_ascii (c : N) :
  isAscii c = true -> isAscii (asciiToLower c) = true.
Proof.
  unfold isAscii, asciiToLower; intros H; apply N.ltb_lt in H.
  destruct ((65 <=? c) && (c <=? 90))%N eqn:U; [|apply N.ltb_lt, H].
  apply andb_true_iff in U as [_ U]; apply N.leb_le in U.
  apply N.ltb_lt; lia.
Qed.

Lemma streq_nil (s : jsstring) : streq s (js "") = is_empty s.
Proof. destruct s; reflexivity. Qed.

(** The guard of line 33 on a string is a test of the trimmed string. *)
Lemma blank_guard (s : jsstring) :
  is_empty s || streq (trim s) (js "") = is_empty (trim s).
Proof.
  rewrite streq_nil; destruct s; reflexivity.
Qed.

Lemma is_empty_map (f : N -> N) (s : jsstring) : is_empty (map f s) = is_empty s.
Proof. destruct s; reflexivity. Qed.

Section SlugDependence.

Context {P : Platform} {S : Type}.
Variable db : Store S.

(** Apart from the text of one console line, a run depends on the slug
    only through the trimmed string being empty or not and through its
    lower-cased form. *)
Lemma GET_depends_on_key (v : variant) (s1 s2 : jsstring) (st : S) :
  is_empty (trim s1) = is_empty (trim s2) ->
  toLowerCase (trim s1) = toLowerCase (trim s2) ->
  let r1 := run db (GET v (Some s1)) st in
  let r2 := run db (GET v (Some s2)) st in
  result r1 = result r2 /\ final r1 = final r2
  /\ store_calls (trace r1) = store_calls (trace r2).
Proof.
  intros B K.
  assert (sanitize s1 = sanitize s2) as Q by (unfold sanitize; rewrite K; reflexivity).
  assert (passes_validation s1 = passes_validation s2) as Pv.
  { unfold passes_validation; rewrite !blank_guard, B, Q, K; reflexivity. }
  destruct (passes_validation s1) eqn:H1; symmetry in Pv.
  - simpl; rewrite (run_GET_lookup db v s1 st H1), (run_GET_lookup db v s2 st Pv), Q.
    repeat split; reflexivity.
  - destruct (run_GET_not_passing db v s1 st H1) as (A1 & A2 & A3).
    destruct (run_GET_not_passing db v s2 st Pv) as (B1 & B2 & B3).
    simpl; repeat split; congruence.
Qed.

End SlugDependence.

(** X1.  White space around the slug does not matter: against every store,
    the run on a slug and the run on the trimmed slug return the same
    response, make the same calls to the store and leave it in the same
    state. *)
Theorem GET_ignores_surrounding_whitespace :
  forall (P : Platform) (v : variant) (slug : jsstring)
         (S : Type) (db : Store S) (st : S),
    let r := run db (GET v (Some slug)) st in
    let r' := run db (GET v (Some (trim slug))) st in
    result r = result r' /\ final r = final r'
    /\ store_calls (trace r) = store_calls (trace r').
Proof.
  intros P v slug S db st.
  apply GET_depends_on_key; rewrite trim_idem; reflexivity.
Qed.

(** X2.  The case of ASCII letters does not matter: two slugs of ASCII
    characters that are equal once [A-Z] is replaced by [a-z] get the same
    response, the same calls to the store and the same final state. *)
Theorem GET_ignores_ascii_case :
  forall (P : Platform) (v : variant) (s1 s2 : jsstring)
         (S : Type) (db : Store S) (st : S),
    forallb isAscii s1 = true ->
    forallb isAscii s2 = true ->
    map asciiToLower s1 = map asciiToLower s2 ->
    let r1 := run db (GET v (Some s1)) st in
    let r2 := run db (GET v (Some s2)) st in
    result r1 = result r2 /\ final r1 = final r2
    /\ store_calls (trace r1) = store_calls (trace r2).
Proof.
  intros P v s1 s2 S db st A1 A2 E.
  assert (map asciiToLower (trim s1) = map asciiToLower (trim s2)) as T.
  { rewrite <- !(trim_map asciiToLower _ isWhiteSpace_asciiToLower), E.
    reflexivity. }
  assert (forall s, forallb isAscii s = true ->
                    toLowerCase (trim s) = map asciiToLower (trim s)) as L.
  { intros s A; unfold toLowerCase.
    assert (forallb isAscii (trim s) = true) as ->; [|reflexivity].
    rewrite forallb_forall in *; intros c Hc; apply A, trim_incl, Hc. }
  apply GET_depends_on_key.
  - rewrite <- (is_empty_map asciiToLower (trim s1)), T.
    apply is_empty_map.
  - rewrite (L s1 A1), (L s2 A2); exact T.
Qed.

(** [TOOL] and [Tool] on the table of the specification's record. *)
Lemma GET_ignores_ascii_case_witness :
  let tool := mkAffiliateLink (js "7f3c") (js "tool")
                (Some (js "https://partner.example/x"))
                (Some (js "https://cogiflow.ai")) (Some 5)
                (js "2024-01-01T00:00:00Z") true in
  let r1 := run table_store
              (@GET sample_platform RedirectRoute (Some (js "TOOL"))) [tool] in
  let r2 := run table_store
              (@GET sample_platform RedirectRoute (Some (js "Tool"))) [tool] in
  result r1 = result r2 /\ final r1 = final r2
  /\ store_calls (trace r1) = store_calls (trace r2).
Proof.
  intros tool.
  apply (GET_ignores_ascii_case sample_platform RedirectRoute
           (js "TOOL") (js "Tool") Table table_store [tool]); reflexivity.
Defined.

(** ** Where a response can send the caller *)

(** X3.  Whatever the slug, the stored row and the behaviour of the store,
    [GET] returns a response with a destination, and the destination is
    the default URL or a URL that [isValidUrl] accepts: a stored URL that
    does not parse, or whose scheme is not http or https, is never the
    target. *)
Theorem GET_destination_is_safe :
  forall (P : Platform) (v : variant) (slug : option jsstring)
         (S : Type) (db : Store S) (st : S),
    exists response u,
      result (run db (GET v slug) st) = Returned response
      /\ destination response = Some u
      /\ (u = DEFAULT_URL \/ isValidUrl u = true).
Proof.
  intros P v slug S db st.
  destruct (GET_cases db v slug st)
    as [(R & _) | [(s & _ & _ & R & _) | (s & link & _ & _ & R & _)]].
  - eexists; exists DEFAULT_URL; split; [exact R|]; split; auto.
  - destruct R as [R|R]; eexists; exists DEFAULT_URL;
      (split; [exact R|]; split; auto).
  - destruct (destination_emitted_any v link) as [D|D].
    + exists (emitted v link), (final_url link); split; [exact R|].
      split; [exact D|].
      unfold final_url.
      destruct (isValidUrl (first_choice link)) eqn:V; auto.
    + exists (emitted v link), DEFAULT_URL; auto.
Qed.

(** ** The calls to the store *)

(** X4.  A run makes no call, one lookup, or one lookup followed by one
    update.  An update is only made after the lookup of this run was
    answered without an error and with a row, and it is the update of that
    row's id with that row's counter (null read as 0) plus one. *)
Theorem GET_store_protocol :
  forall (P : Platform) (v : variant) (slug : option jsstring)
         (S : Type) (db : Store S) (st : S),
    let r := run db (GET v slug) st in
    (store_calls (trace r) = []
     \/ (exists q, store_calls (trace r) = [Selected q])
     \/ (exists q i c, store_calls (trace r) = [Selected q; Updated i c]))
    /\ (forall i c,
           In (Updated i c) (trace r) ->
           exists s reply link st1,
             slug = Some s
             /\ single db (sanitize s) st = (Fulfilled reply, st1)
             /\ fetchError reply = None
             /\ affiliateLink reply = Some link
             /\ i = id link
             /\ c = Number_add (clicks_or_0 link) 1).
Proof.
  intros P v slug S db st r.
  assert (forall i c, In (Updated i c) (trace r) ->
                      In (Updated i c) (store_calls (trace r))) as Upd.
  { intros i c H; apply filter_In; split; [exact H | reflexivity]. }
  destruct slug as [s|].
  2:{ subst r; rewrite run_GET_missing; simpl; split; [auto|].
      intros i c [H|[]]; discriminate. }
  destruct (passes_validation s) eqn:H.
  2:{ destruct (run_GET_not_passing db v s st H) as (_ & _ & R); fold r in R.
      split; [auto|]. intros i c Hin; apply Upd in Hin.
      rewrite R in Hin; destruct Hin. }
  destruct (single db (sanitize s) st) as [[reply|e] st1] eqn:E.
  2:{ destruct (run_GET_lookup_rejected db v s st st1 e H E) as (_ & _ & R).
      fold r in R. split; [right; left; eauto|].
      intros i c Hin; apply Upd in Hin; rewrite R in Hin.
      destruct Hin as [Hin|[]]; discriminate. }
  destruct (fetchError reply) as [e|] eqn:F.
  { destruct (run_GET_fetch_error db v s st st1 reply e H E F) as (_ & _ & R).
    fold r in R. split; [right; left; eauto|].
    intros i c Hin; apply Upd in Hin; rewrite R in Hin.
    destruct Hin as [Hin|[]]; discriminate. }
  destruct (affiliateLink reply) as [link|] eqn:D.
  2:{ destruct (run_GET_no_row db v s st st1 reply H E F D) as (_ & _ & R).
      fold r in R. split; [right; left; eauto|].
      intros i c Hin; apply Upd in Hin; rewrite R in Hin.
      destruct Hin as [Hin|[]]; discriminate. }
  assert (store_calls (trace r)
          = [Selected (sanitize s);
             Updated (id link) (Number_add (clicks_or_0 link) 1)]) as R.
  { destruct (update db (id link) (Number_add (clicks_or_0 link) 1) st1)
      as [[u|e] st2] eqn:U.
    - apply (run_GET_found db v s st st1 st2 reply link u H E F D U).
    - apply (run_GET_update_rejected db v s st st1 st2 reply link e H E F D U). }
  split; [right; right; eauto|].
  intros i c Hin; apply Upd in Hin; rewrite R in Hin.
  destruct Hin as [Hin|[Hin|[]]]; [discriminate|].
  injection Hin as <- <-.
  exists s, reply, link, st1; auto 10.
Qed.

(** ** The tracking headers *)

(** X5.  A response that carries the two tracking headers comes from a run
    that made the update: the header X-Cogiflow-Affiliate is the id the
    update was made for, and X-Cogiflow-Clicks is [String(c)] for the very
    counter value [c] the update sent to the store. *)
Theorem tracking_headers_report_the_update :
  forall (P : Platform) (v : variant) (slug : option jsstring)
         (S : Type) (db : Store S) (st : S) (response : Response),
    result (run db (GET v slug) st) = Returned response ->
    is_tracked response = true ->
    exists q i c,
      store_calls (trace (run db (GET v slug) st))
      = [Selected q; Updated i c]
      /\ header "X-Cogiflow-Affiliate" response = Some i
      /\ header "X-Cogiflow-Clicks" response = Some (Number_toString c).
Proof.
  intros P v slug S db st response R T.
  destruct (GET_cases db v slug st)
    as [(R' & _) | [(s & _ & _ & R' & _) | (s & link & _ & _ & R' & C)]].
  - rewrite R in R'; injection R' as ->; discriminate.
  - destruct R' as [R'|R']; rewrite R in R'; injection R' as ->; discriminate.
  - rewrite R in R'; injection R' as ->.
    exists (sanitize s), (id link), (Number_add (clicks_or_0 link) 1).
    split; [exact C|].
    unfold emitted in *.
    destruct (legalHeaderValue (id link)); [|discriminate].
    destruct v; unfold tracked_response in *;
      try (destruct (URL_parse (final_url link)));
      try discriminate; split; reflexivity.
Qed.

(** The record of the specification on the in-memory table. *)
Lemma tracking_headers_report_the_update_witness :
  let tool := mkAffiliateLink (js "7f3c") (js "tool")
                (Some (js "https://partner.example/x"))
                (Some (js "https://cogiflow.ai")) (Some 5)
                (js "2024-01-01T00:00:00Z") true in
  exists q i c,
    store_calls (trace (run table_store
                          (@GET sample_platform MinimalPageRoute
                             (Some (js "tool"))) [tool]))
    = [Selected q; Updated i c]
    /\ header "X-Cogiflow-Affiliate"
         (@emitted sample_platform MinimalPageRoute tool) = Some i
    /\ header "X-Cogiflow-Clicks"
         (@emitted sample_platform MinimalPageRoute tool)
       = Some (@Number_toString sample_platform c).
Proof.
  intros tool.
  apply (tracking_headers_report_the_update sample_platform MinimalPageRoute
           (Some (js "tool")) Table table_store [tool]
           (@emitted sample_platform MinimalPageRoute tool));
    reflexivity.
Defined.

(** X6.  For a found row whose update was answered, a URL parser that
    accepts the default URL and response constructors that take the id of
    the row as a header value, the [catch] block is not entered.  The
    redirect route answers with status 301 to the cascade's URL; the two
    page routes answer with status 200 and content type text/html, and
    their page names the host of that URL as the parser gives it.  All
    three carry the row's id in X-Cogiflow-Affiliate. *)
Theorem tracked_response_by_route :
  forall (P : Platform) (v : variant) (slug : jsstring)
         (S : Type) (db : Store S) (st st1 st2 : S)
         (reply : SingleReply) (link : AffiliateLink) (u : UpdateReply),
    passes_validation slug = true ->
    single db (sanitize slug) st = (Fulfilled reply, st1) ->
    fetchError reply = None ->
    affiliateLink reply = Some link ->
    update db (id link) (Number_add (clicks_or_0 link) 1) st1
    = (Fulfilled u, st2) ->
    isValidUrl DEFAULT_URL = true ->
    legalHeaderValue (id link) = true ->
    exists response,
      result (run db (GET v (Some slug)) st) = Returned response
      /\ header "X-Cogiflow-Affiliate" response = Some (id link)
      /\ match v with
         | RedirectRoute =>
             exists init,
               response = NextResponse_redirect (cascade link) init
               /\ status init = 301
         | SpinnerPageRoute =>
             exists url init,
               URL_parse (cascade link) = Some url
               /\ response = new_Response
                               (SpinnerPage (hostname url) (cascade link)) init
               /\ status init = 200
               /\ header "Content-Type" response
                  = Some (js "text/html; charset=utf-8")
         | MinimalPageRoute =>
             exists url init,
               URL_parse (cascade link) = Some url
               /\ response = new_Response
                               (MinimalPage (hostname url) (cascade link)) init
               /\ status init = 200
               /\ header "Content-Type" response
                  = Some (js "text/html; charset=utf-8")
         end.
Proof.
  intros P v slug S db st st1 st2 reply link u H E F D U V L.
  destruct (run_GET_found db v slug st st1 st2 reply link u H E F D U)
    as (R & _ & _).
  destruct (emitted_headers v link V L) as (_ & A & _).
  exists (emitted v link); split; [exact R|]. split; [exact A|].
  destruct (isValidUrl_parses _ (final_url_valid link V)) as [url Eu].
  rewrite <- final_url_cascade.
  unfold emitted; rewrite L.
  destruct v; unfold tracked_response; rewrite ?Eu.
  - eexists; split; reflexivity.
  - exists url; eexists; repeat split; reflexivity.
  - exists url; eexists; repeat split; reflexivity.
Qed.

(** The spinner page for the record of the specification. *)
Lemma tracked_response_by_route_witness :
  let tool := mkAffiliateLink (js "7f3c") (js "tool")
                (Some (js "https://partner.example/x"))
                (Some (js "https://cogiflow.ai")) (Some 5)
                (js "2024-01-01T00:00:00Z") true in
  exists response,
    result (run table_store
              (@GET sample_platform SpinnerPageRoute (Some (js "tool")))
              [tool])
    = Returned response
    /\ header "X-Cogiflow-Affiliate" response = Some (js "7f3c")
    /\ exists url init,
         sample_URL_parse (@cascade sample_platform tool) = Some url
         /\ response = new_Response
                         (SpinnerPage (hostname url)
                            (@cascade sample_platform tool)) init
         /\ status init = 200
         /\ header "Content-Type" response
            = Some (js "text/html; charset=utf-8").
Proof.
  intros tool.
  apply (tracked_response_by_route sample_platform SpinnerPageRoute
           (js "tool") Table table_store [tool] [tool] [set_clicks 6 tool]
           (mkSingleReply (Some tool) None) tool
           (mkUpdateReply (Some [set_clicks 6 tool]) None));
    reflexivity.
Defined.

(** ** Runs on the in-memory table *)

Lemma set_clicks_twice (c c' : Z) (row : AffiliateLink) :
  set_clicks c (set_clicks c' row) = set_clicks c row.
Proof. reflexivity. Qed.

Lemma set_clicks_same (row : AffiliateLink) (n : Z) :
  clicks row = Some n -> set_clicks n row = row.
Proof. destruct row; simpl; intros ->; reflexivity. Qed.

Lemma write_clicks_twice (i : jsstring) (c c' : Z) (t : Table) :
  write_clicks i c (write_clicks i c' t) = write_clicks i c t.
Proof.
  unfold write_clicks; rewrite map_map; apply map_ext; intros row.
  destruct (streq (id row) i) eqn:E; simpl; rewrite E; reflexivity.
Qed.

(** The update touches no column but the counter. *)
Lemma without_clicks_write (i : jsstring) (c : Z) (t : Table) :
  without_clicks (write_clicks i c t) = without_clicks t.
Proof.
  unfold without_clicks, write_clicks; rewrite map_map; apply map_ext.
  intros row; destruct (streq (id row) i); reflexivity.
Qed.

(** The rows a lookup sees are the same rows after an update, with the
    counter the update wrote. *)
Lemma filter_matches_write (q i : jsstring) (c : Z) (t : Table) :
  filter (matches q) (write_clicks i c t)
  = write_clicks i c (filter (matches q) t).
Proof.
  unfold write_clicks; induction t as [|row t IH]; simpl; [reflexivity|].
  assert (matches q (if streq (id row) i then set_clicks c row else row)
          = matches q row) as -> by (destruct (streq (id row) i); reflexivity).
  destruct (matches q row); simpl; rewrite IH; reflexivity.
Qed.

Section TableRuns.

Context {P : Platform}.

(** A lookup that does not find exactly one row: nothing is written. *)
Lemma table_run_not_unique (v : variant) (s : jsstring) (t : Table) :
  passes_validation s = true ->
  List.length (filter (matches (sanitize s)) t) <> 1%nat ->
  let r := run table_store (GET v (Some s)) t in
  result r = Returned (default_redirect "public, max-age=300")
  /\ final r = t
  /\ store_calls (trace r) = [Selected (sanitize s)].
Proof.
  intros H L.
  apply (run_GET_fetch_error table_store v s t t
           (mkSingleReply None (Some no_rows)) no_rows H); [|reflexivity].
  simpl; unfold table_single.
  destruct (filter (matches (sanitize s)) t) as [|row [|row' rest]];
    try reflexivity.
  contradiction L; reflexivity.
Qed.

(** A lookup that finds exactly one row: its counter is written. *)
Lemma table_run_unique (v : variant) (s : jsstring) (t : Table)
  (link : AffiliateLink) :
  passes_validation s = true ->
  filter (matches (sanitize s)) t = [link] ->
  let r := run table_store (GET v (Some s)) t in
  result r = Returned (emitted v link)
  /\ final r = write_clicks (id link) (Number_add (clicks_or_0 link) 1) t
  /\ store_calls (trace r)
     = [Selected (sanitize s);
        Updated (id link) (Number_add (clicks_or_0 link) 1)].
Proof.
  intros H U.
  exact (run_GET_found table_store v s t t _ _ link _ H
           (table_single_unique _ t link U) eq_refl eq_refl eq_refl).
Qed.

(** What a run can do to the table. *)
Lemma table_run_final (v : variant) (slug : option jsstring) (t : Table) :
  let r := run table_store (GET v slug) t in
  final r = t
  \/ exists s link,
       slug = Some s /\ passes_validation s = true
       /\ filter (matches (sanitize s)) t = [link]
       /\ final r = write_clicks (id link) (Number_add (clicks_or_0 link) 1) t.
Proof.
  destruct slug as [s|]; [|left; reflexivity].
  destruct (passes_validation s) eqn:H.
  2:{ left; apply (run_GET_not_passing table_store v s t H). }
  destruct (filter (matches (sanitize s)) t) as [|link [|row' rest]] eqn:U.
  - left; apply (table_run_not_unique v s t H); rewrite U; discriminate.
  - right; exists s, link; repeat split; auto.
    apply (table_run_unique v s t link H U).
  - left; apply (table_run_not_unique v s t H); rewrite U; discriminate.
Qed.

End TableRuns.

(** X7.  On the in-memory table a request never adds, removes or reorders
    rows and never changes a column other than the counter: the table with
    its counters blanked is the same before and after.  Either the table
    is left as it was, or exactly one active row matched the sanitized
    slug and what changed is the counter of the rows with that row's id. *)
Theorem GET_writes_only_the_counter :
  forall (P : Platform) (v : variant) (slug : option jsstring) (t : Table),
    let r := run table_store (GET v slug) t in
    without_clicks (final r) = without_clicks t
    /\ List.length (final r) = List.length t
    /\ (final r = t
        \/ exists s link,
             slug = Some s
             /\ filter (matches (sanitize s)) t = [link]
             /\ final r
                = write_clicks (id link) (Number_add (clicks_or_0 link) 1) t).
Proof.
  intros P v slug t r.
  destruct (table_run_final v slug t) as [E | (s & link & Es & _ & U & E)];
    fold r in E; rewrite E.
  - auto.
  - split; [apply without_clicks_write|].
    split; [unfold write_clicks; apply length_map|].
    right; exists s, link; auto.
Qed.

(** X8.  On the in-memory table, a slug that passes validation but for
    which the number of active rows of that slug is not one (the slug is
    unknown, its row is inactive, or several active rows share it) gets the
    default redirect with a lifetime of 300 seconds; the run makes the
    lookup and no update, and the table is left as it was. *)
Theorem GET_without_unique_active_row :
  forall (P : Platform) (v : variant) (slug : jsstring) (t : Table),
    passes_validation slug = true ->
    List.length (filter (matches (sanitize slug)) t) <> 1%nat ->
    let r := run table_store (GET v (Some slug)) t in
    result r = Returned (NextResponse_redirect DEFAULT_URL
                           (mkInit 301 [(js "Cache-Control",
                                         js "public, max-age=300")]))
    /\ final r = t
    /\ store_calls (trace r) = [Selected (sanitize slug)].
Proof.
  intros P v s t H L. apply (table_run_not_unique v s t H L).
Qed.

(** The record of the specification once it is switched off. *)
Lemma GET_without_unique_active_row_witness :
  let tool := mkAffiliateLink (js "7f3c") (js "tool")
                (Some (js "https://partner.example/x"))
                (Some (js "https://cogiflow.ai")) (Some 5)
                (js "2024-01-01T00:00:00Z") false in
  let r := run table_store
             (@GET sample_platform RedirectRoute (Some (js "Tool "))) [tool] in
  result r = Returned (NextResponse_redirect DEFAULT_URL
                         (mkInit 301 [(js "Cache-Control",
                                       js "public, max-age=300")]))
  /\ final r = [tool]
  /\ store_calls (trace r) = [Selected (js "tool")].
Proof.
  intros tool.
  apply (GET_without_unique_active_row sample_platform RedirectRoute
           (js "Tool ") [tool]); [reflexivity | discriminate].
Defined.

(** ** Several requests for one slug *)

Section Suspended.

Context {P : Platform} {S : Type}.
Variable db : Store S.

(** A handler whose slug passed validation is, first of all, its lookup. *)
Lemma GET_starts_with_lookup (v : variant) (slug : jsstring) :
  passes_validation slug = true ->
  GET v (Some slug)
  = SelectSingle (sanitize slug)
      (fun a => try_catch (bind (await a) (after_lookup v (sanitize slug)))
                  GET_catch).
Proof.
  unfold passes_validation; intros H.
  apply andb_true_iff in H as [H1 H2]; apply negb_true_iff in H1.
  unfold GET, GET_try; rewrite H1, H2; reflexivity.
Qed.

(** The handler resumed with a row, up to its end. *)
Lemma run_resumed_with_row (v : variant) (q : jsstring) (st1 st2 : S)
  (reply : SingleReply) (link : AffiliateLink) (u : UpdateReply) :
  fetchError reply = None ->
  affiliateLink reply = Some link ->
  update db (id link) (Number_add (clicks_or_0 link) 1) st1 = (Fulfilled u, st2) ->
  let r := run db (try_catch (bind (await (Fulfilled reply)) (after_lookup v q))
                     GET_catch) st1 in
  result r = Returned (emitted v link) /\ final r = st2.
Proof.
  intros F D U; simpl.
  unfold after_lookup; rewrite F, D; unfold track_and_respond; simpl.
  rewrite U; simpl.
  destruct (run_choose_and_respond db v q link st2) as (R1 & R2 & _).
  destruct (updateError u); simpl; rewrite R1, R2; split; reflexivity.
Qed.

(** Taking a step and running on is running: the response and the final
    state of a handler do not depend on where it was suspended. *)
Lemma step_then_run {R : Type} (p : prog R) (st : S) :
  result (run db (fst (step db p st)) (snd (step db p st))) = result (run db p st)
  /\ final (run db (fst (step db p st)) (snd (step db p st))) = final (run db p st).
Proof.
  revert st; induction p as [r | e | l args k IH | s k _ | i c k _]; intros st;
    simpl; auto.
  - destruct (single db s st); auto.
  - destruct (update db i c st); auto.
Qed.

(** Two handlers answered their lookups one after the other, before
    either goes on. *)
Lemma in_flight_lookups_first {R : Type} (q : jsstring)
  (k1 k2 : settled SingleReply -> prog R) (st st1 st2 : S)
  (a1 a2 : settled SingleReply) :
  single db q st = (a1, st1) ->
  single db q st1 = (a2, st2) ->
  in_flight db [true; false] (SelectSingle q k1) (SelectSingle q k2) st
  = (result (run db (k1 a1) st2),
     result (run db (k2 a2) (final (run db (k1 a1) st2))),
     final (run db (k2 a2) (final (run db (k1 a1) st2)))).
Proof.
  intros E1 E2; cbn [in_flight step]; rewrite E1, E2; reflexivity.
Qed.

End Suspended.

Lemma safe_between (n : Z) (k : nat) :
  isSafeInteger n = true ->
  isSafeInteger (n + Z.of_nat (Datatypes.S k)) = true ->
  isSafeInteger (n + 1) = true.
Proof.
  unfold isSafeInteger; rewrite !Z.leb_le; lia.
Qed.

Section Sequence.

Context {P : Platform}.

Lemma after_requests_counts (v : variant) (slug : jsstring) (k : nat) :
  passes_validation slug = true ->
  forall (t : Table) (link : AffiliateLink) (n : Z),
    filter (matches (sanitize slug)) t = [link] ->
    clicks link = Some n ->
    isSafeInteger n = true ->
    isSafeInteger (n + Z.of_nat k) = true ->
    filter (matches (sanitize slug)) (after_requests v slug k t)
    = [set_clicks (n + Z.of_nat k) link]
    /\ after_requests v slug k t
       = match k with
         | O => t
         | _ => write_clicks (id link) (n + Z.of_nat k) t
         end.
Proof.
  intros H; induction k as [|k IH]; intros t link n U C Sn Sk.
  - simpl; rewrite Z.add_0_r, (set_clicks_same link n C); auto.
  - pose proof (safe_between n k Sn Sk) as S1.
    destruct (table_run_unique v slug t link H U) as (_ & F & _).
    assert (Number_add (clicks_or_0 link) 1 = n + 1) as A.
    { unfold clicks_or_0; rewrite C; apply Number_add_safe, Sn. }
    rewrite A in F.
    assert (filter (matches (sanitize slug)) (write_clicks (id link) (n + 1) t)
            = [set_clicks (n + 1) link]) as U1.
    { rewrite filter_matches_write, U; unfold write_clicks; simpl.
      rewrite streq_refl; reflexivity. }
    assert (n + 1 + Z.of_nat k = n + Z.of_nat (Datatypes.S k)) as Ek by lia.
    destruct (IH (write_clicks (id link) (n + 1) t) (set_clicks (n + 1) link)
                (n + 1) U1 eq_refl S1) as (I1 & I2).
    { rewrite Ek; exact Sk. }
    simpl after_requests; rewrite F.
    rewrite Ek in I1, I2. split; [exact I1|].
    rewrite I2. destruct k as [|k'].
    + f_equal; lia.
    + simpl id; apply write_clicks_twice.
Qed.

(** The handler resumed with a row on the in-memory table. *)
Lemma table_resumed_with_row (v : variant) (q : jsstring) (t : Table)
  (link : AffiliateLink) :
  let r := run table_store
             (try_catch (bind (await (Fulfilled (mkSingleReply (Some link) None)))
                           (after_lookup v q))
                GET_catch) t in
  result r = Returned (emitted v link)
  /\ final r = write_clicks (id link) (Number_add (clicks_or_0 link) 1) t.
Proof.
  exact (run_resumed_with_row table_store v q t
           (write_clicks (id link) (Number_add (clicks_or_0 link) 1) t)
           (mkSingleReply (Some link) None) link
           (mkUpdateReply
              (Some (filter (fun row => streq (id row) (id link))
                       (write_clicks (id link)
                          (Number_add (clicks_or_0 link) 1) t)))
              None)
           eq_refl eq_refl eq_refl).
Qed.

End Sequence.

(** X9.  On the in-memory table, [k] requests for the same slug, one after
    another, add [k] to the counter of the one active row of that slug
    (while the counter stays a safe integer): after them the lookup still
    finds that row alone, with the counter [n + k], and no other column of
    the table has changed. *)
Theorem requests_in_sequence_count :
  forall (P : Platform) (v : variant) (slug : jsstring) (k : nat)
         (t : Table) (link : AffiliateLink) (n : Z),
    passes_validation slug = true ->
    filter (matches (sanitize slug)) t = [link] ->
    clicks link = Some n ->
    isSafeInteger n = true ->
    isSafeInteger (n + Z.of_nat k) = true ->
    filter (matches (sanitize slug)) (after_requests v slug k t)
    = [set_clicks (n + Z.of_nat k) link]
    /\ without_clicks (after_requests v slug k t) = without_clicks t.
Proof.
  intros P v slug k t link n H U C Sn Sk.
  destruct (after_requests_counts v slug k H t link n U C Sn Sk) as (I1 & I2).
  split; [exact I1|]. rewrite I2.
  destruct k; [reflexivity | apply without_clicks_write].
Qed.

(** Three requests for the record of the specification: 5 becomes 8. *)
Lemma requests_in_sequence_count_witness :
  let tool := mkAffiliateLink (js "7f3c") (js "tool")
                (Some (js "https://partner.example/x"))
                (Some (js "https://cogiflow.ai")) (Some 5)
                (js "2024-01-01T00:00:00Z") true in
  filter (matches (js "tool"))
    (@after_requests sample_platform RedirectRoute (js "Tool ") 3 [tool])
  = [set_clicks 8 tool]
  /\ without_clicks
       (@after_requests sample_platform RedirectRoute (js "Tool ") 3 [tool])
     = without_clicks [tool].
Proof.
  intros tool.
  apply (requests_in_sequence_count sample_platform RedirectRoute
           (js "Tool ") 3 [tool] tool 5); reflexivity.
Defined.

(** X10.  The counter update is a read followed by a write, not an atomic
    increment.  On the in-memory table, when two requests for the same
    slug are both answered their lookup before either makes its update,
    both get the same response and both write [n + 1]: the row ends with
    the counter [n + 1] and one click is lost.  Handled one after the
    other, the same two requests leave [n + 2]. *)
Theorem requests_in_flight_lose_a_click :
  forall (P : Platform) (v : variant) (slug : jsstring)
         (t : Table) (link : AffiliateLink) (n : Z),
    passes_validation slug = true ->
    filter (matches (sanitize slug)) t = [link] ->
    clicks link = Some n ->
    isSafeInteger n = true ->
    isSafeInteger (n + 1) = true ->
    (exists response t',
        in_flight table_store [true; false]
          (GET v (Some slug)) (GET v (Some slug)) t
        = (Returned response, Returned response, t')
        /\ filter (matches (sanitize slug)) t' = [set_clicks (n + 1) link])
    /\ (exists response1 response2 t',
           in_flight table_store []
             (GET v (Some slug)) (GET v (Some slug)) t
           = (Returned response1, Returned response2, t')
           /\ filter (matches (sanitize slug)) t' = [set_clicks (n + 2) link]).
Proof.
  intros P v slug t link n H U C Sn S1.
  assert (Number_add (clicks_or_0 link) 1 = n + 1) as A.
  { unfold clicks_or_0; rewrite C; apply Number_add_safe, Sn. }
  assert (forall c, filter (matches (sanitize slug)) (write_clicks (id link) c t)
                    = [set_clicks c link]) as W.
  { intros c; rewrite filter_matches_write, U; unfold write_clicks; simpl.
    rewrite streq_refl; reflexivity. }
  split.
  - exists (emitted v link), (write_clicks (id link) (n + 1) t).
    split; [|apply W].
    rewrite (GET_starts_with_lookup v slug H).
    rewrite (in_flight_lookups_first table_store (sanitize slug) _ _ t t t
               _ _ (table_single_unique _ t link U)
               (table_single_unique _ t link U)).
    destruct (table_resumed_with_row v (sanitize slug) t link) as (R1 & F1).
    destruct (table_resumed_with_row v (sanitize slug)
                (write_clicks (id link) (n + 1) t) link) as (R2 & F2).
    rewrite A in F1, F2; rewrite write_clicks_twice in F2.
    rewrite F1, R1, R2, F2; reflexivity.
  - destruct (table_run_unique v slug t link H U) as (R1 & F1 & _).
    rewrite A in F1.
    destruct (table_run_unique v slug (write_clicks (id link) (n + 1) t)
                (set_clicks (n + 1) link) H (W (n + 1))) as (R2 & F2 & _).
    assert (Number_add (clicks_or_0 (set_clicks (n + 1) link)) 1 = n + 2) as A2.
    { change (Number_add (n + 1) 1 = n + 2).
      rewrite (Number_add_safe _ S1); lia. }
    rewrite A2 in F2; simpl id in F2; rewrite write_clicks_twice in F2.
    exists (emitted v link), (emitted v (set_clicks (n + 1) link)),
      (write_clicks (id link) (n + 2) t).
    split; [|apply W].
    cbn [in_flight]; rewrite F1, R1, R2, F2; reflexivity.
Qed.

(** Two requests for the record of the specification, answered their
    lookups together: 5 becomes 6. *)
Lemma requests_in_flight_lose_a_click_witness :
  let tool := mkAffiliateLink (js "7f3c") (js "tool")
                (Some (js "https://partner.example/x"))
                (Some (js "https://cogiflow.ai")) (Some 5)
                (js "2024-01-01T00:00:00Z") true in
  exists response t',
    in_flight table_store [true; false]
      (@GET sample_platform RedirectRoute (Some (js "tool")))
      (@GET sample_platform RedirectRoute (Some (js "tool"))) [tool]
    = (Returned response, Returned response, t')
    /\ filter (matches (js "tool")) t' = [set_clicks 6 tool].
Proof.
  intros tool.
  apply (proj1 (requests_in_flight_lose_a_click sample_platform RedirectRoute
                  (js "tool") [tool] tool 5
                  eq_refl eq_refl eq_refl eq_refl eq_refl)).
Defined.

(** ** Cache-Control on every response *)

Lemma emitted_cache_control {P : Platform} (v : variant) (link : AffiliateLink) :
  exists cc,
    header "Cache-Control" (emitted v link) = Some cc
    /\ ((is_default_redirect (emitted v link) = true
         /\ is_tracked (emitted v link) = false
         /\ max_age cc = Some 60)
        \/ (is_tracked (emitted v link) = true
            /\ no_store cc = true /\ max_age cc = None)).
Proof.
  unfold emitted; destruct (legalHeaderValue (id link)).
  - destruct v; unfold tracked_response;
      try (destruct (URL_parse (final_url link)));
      eexists; (split; [reflexivity|]);
      ((right; repeat split; reflexivity) || (left; repeat split; reflexivity)).
  - eexists; split; [reflexivity|]. left; repeat split; reflexivity.
Qed.

(** X11.  Every response of [GET] carries a Cache-Control header, of one of
    three kinds: a lifetime of 300 seconds or of 60 seconds on a redirect
    to the default URL, or a value that forbids storing, on a response with
    the tracking headers.  No response is cacheable for more than 300
    seconds, and a tracked response is never cacheable. *)
Theorem GET_cache_control_always_set :
  forall (P : Platform) (v : variant) (slug : option jsstring)
         (S : Type) (db : Store S) (st : S),
    exists response cc,
      result (run db (GET v slug) st) = Returned response
      /\ header "Cache-Control" response = Some cc
      /\ ((is_default_redirect response = true
           /\ is_tracked response = false
           /\ (max_age cc = Some 300 \/ max_age cc = Some 60))
          \/ (is_tracked response = true
              /\ no_store cc = true /\ max_age cc = None)).
Proof.
  intros P v slug S db st.
  destruct (GET_cases db v slug st)
    as [(R & _) | [(s & _ & _ & R & _) | (s & link & _ & _ & R & _)]].
  - eexists; eexists; split; [exact R|]. split; [reflexivity|].
    left; repeat split; auto.
  - destruct R as [R|R]; eexists; eexists; (split; [exact R|]);
      (split; [reflexivity|]); left; repeat split; auto.
  - destruct (emitted_cache_control v link) as (cc & C & K).
    exists (emitted v link), cc; split; [exact R|]. split; [exact C|].
    destruct K as [(K1 & K2 & K3) | K]; [left | right]; auto.
Qed.

(** ** Reporting a failed update *)

Section UpdateReport.

Context {P : Platform} {S : Type}.
Variable db : Store S.

(** The statements after the update never print the line that reports a
    failed update. *)
Lemma choose_and_respond_no_report (v : variant) (q : jsstring)
  (link : AffiliateLink) (st : S) (e : PostgrestError) :
  ~ In (Logged Error [LString (js "Error updating clicks counter:"); LError e])
       (trace (run db (try_catch (choose_and_respond v q link) GET_catch) st)).
Proof.
  unfold choose_and_respond.
  destruct (isValidUrl (first_choice link)); simpl;
    destruct v; simpl; unfold hostname_of, built;
    try (destruct (URL_parse _)); simpl;
    destruct (legalHeaderValue (id link)); simpl; intros X;
    repeat (destruct X as [X|X]; [discriminate X|]); exact X.
Qed.

End UpdateReport.

(** X12.  A failed update is reported and a successful one is not: for a
    found row whose update was answered, the trace of the run has the
    console.error line [Error updating clicks counter:] with an error
    object exactly when the update answered with that error. *)
Theorem update_error_is_logged :
  forall (P : Platform) (v : variant) (slug : jsstring)
         (S : Type) (db : Store S) (st st1 st2 : S)
         (reply : SingleReply) (link : AffiliateLink) (u : UpdateReply)
         (e : PostgrestError),
    passes_validation slug = true ->
    single db (sanitize slug) st = (Fulfilled reply, st1) ->
    fetchError reply = None ->
    affiliateLink reply = Some link ->
    update db (id link) (Number_add (clicks_or_0 link) 1) st1
    = (Fulfilled u, st2) ->
    (In (Logged Error [LString (js "Error updating clicks counter:"); LError e])
        (trace (run db (GET v (Some slug)) st))
     <-> updateError u = Some e).
Proof.
  intros P v slug S db st st1 st2 reply link u e H E F D U.
  rewrite (run_GET_lookup db v slug st H), E; simpl.
  unfold after_lookup; rewrite F, D; unfold track_and_respond; simpl.
  rewrite U; simpl.
  pose proof (choose_and_respond_no_report db v (sanitize slug) link st2 e) as N.
  destruct (updateError u) as [e0|]; simpl; split.
  - intros [X|[X|[X|[X|X]]]]; try discriminate X.
    + injection X as ->; reflexivity.
    + contradiction.
  - intros X; injection X as ->; auto.
  - intros [X|[X|[X|[X|X]]]]; try discriminate X. contradiction.
  - discriminate.
Qed.

(** The record of the specification on the table that refuses writes. *)
Lemma update_error_is_logged_witness :
  let tool := mkAffiliateLink (js "7f3c") (js "tool")
                (Some (js "https://partner.example/x"))
                (Some (js "https://cogiflow.ai")) (Some 5)
                (js "2024-01-01T00:00:00Z") true in
  In (Logged Error [LString (js "Error updating clicks counter:");
                    LError permission_denied])
     (trace (run readonly_store
               (@GET sample_platform RedirectRoute (Some (js "tool"))) [tool])).
Proof.
  intros tool.
  apply (update_error_is_logged sample_platform RedirectRoute (js "tool")
           Table readonly_store [tool] [tool] [tool]
           (mkSingleReply (Some tool) None) tool
           (mkUpdateReply None (Some permission_denied)) permission_denied
           eq_refl eq_refl eq_refl eq_refl eq_refl).
  reflexivity.
Defined.
